(** * Contribution settlement: intent creation and on-chain confirmation

    A shallow embedding of [ContributionsService]
    (src/sponsors/contributions.service.ts) together with the entity it
    persists (src/sponsors/entities/sponsor-contribution.entity.ts).

    The service is asynchronous: every [await] hands control back to the
    event loop.  Its two operations are therefore written once, as programs
    over the awaited calls ([Prog]), and given two readings: [run] performs
    the calls of one invocation back to back, [run_pool] lets a scheduler
    interleave several invocations at their awaits. *)

From Stdlib Require Import ZArith String Ascii List Bool Lia.
From Stdlib Require Import Floats.SpecFloat.
From stdpp Require Import gmap strings list fin_maps.

Local Open Scope string_scope.
Local Open Scope Z_scope.

(** ** The JavaScript values and primitives the service relies on *)

Module Js.

(** A value whose TypeScript type is not a plain string; only what
    [typeof v === 'string'] and truthiness can observe is kept. *)
Inductive Value : Type :=
| Undefined
| Null
| Num (z : Z)
| Str (s : string)
| Obj.

(** [typeof v === 'string' ? v : undefined] *)
Definition string_or_undefined (v : Value) : option string :=
  match v with
  | Str s => Some s
  | _ => None
  end.

(** Truthiness of a [string | undefined]: [undefined] and the empty string
    are falsy. *)
Definition truthy (o : option string) : bool :=
  match o with
  | Some (String _ _) => true
  | _ => false
  end.

(** *** Numbers: IEEE 754 binary64 *)

Definition prec : Z := 53.
Definition emax : Z := 1024.

Abbreviation number := spec_float.

(** The double nearest to [m * 10^e10], ties to even. *)
Definition of_decimal (m : Z) (e10 : Z) : number :=
  match m with
  | Zpos p =>
      if 0 <=? e10
      then binary_normalize prec emax (Z.pos p * 10 ^ e10) 0 false
      else SFdiv prec emax
             (S754_finite false p 0)
             (S754_finite false (Z.to_pos (10 ^ (- e10))) 0)
  | _ => S754_zero false
  end.

Definition with_sign (neg : bool) (x : number) : number :=
  if neg then SFopp x else x.

Definition sub (x y : number) : number := SFsub prec emax x y.
Definition abs (x : number) : number := SFabs x.
(** [x > y]; false as soon as one side is NaN. *)
Definition gt (x y : number) : bool := SFltb y x.

(** *** [parseFloat] *)

Definition is_white_space (c : ascii) : bool :=
  let n := nat_of_ascii c in
  (Nat.eqb n 32 || Nat.eqb n 9 || Nat.eqb n 10 || Nat.eqb n 11
   || Nat.eqb n 12 || Nat.eqb n 13)%bool.

Fixpoint trim_start (s : string) : string :=
  match s with
  | String c r => if is_white_space c then trim_start r else s
  | EmptyString => s
  end.

Definition digit_value (c : ascii) : option Z :=
  let n := nat_of_ascii c in
  if (Nat.leb 48 n && Nat.leb n 57)%bool
  then Some (Z.of_nat n - 48) else None.

(** Reads the longest run of decimal digits at the head of [s]:
    their value on top of [acc], how many there were, and the rest. *)
Fixpoint digits (s : string) (acc : Z) (count : Z) : Z * Z * string :=
  match s with
  | String c r =>
      match digit_value c with
      | Some d => digits r (10 * acc + d) (count + 1)
      | None => (acc, count, s)
      end
  | EmptyString => (acc, count, s)
  end.

Definition sign (s : string) : bool * string :=
  match s with
  | String "-" r => (true, r)
  | String "+" r => (false, r)
  | _ => (false, s)
  end.

(** [ExponentPart]: [e] or [E], an optional sign, at least one digit;
    anything else leaves the exponent at 0. *)
Definition exponent (s : string) : Z :=
  match s with
  | String c r =>
      if (Ascii.eqb c "e" || Ascii.eqb c "E")%bool then
        let '(neg, r') := sign r in
        let '(v, n, _) := digits r' 0 0 in
        if n =? 0 then 0 else if neg then - v else v
      else 0
  | EmptyString => 0
  end.

(** What [parseFloat] reads off a string: the longest prefix of the
    trimmed string that is a [StrDecimalLiteral], as the exact decimal
    [m * 10^e10] it denotes, or nothing. *)
Inductive Literal : Type :=
| NotANumber
| Infinite (neg : bool)
| Decimal (neg : bool) (m : Z) (e10 : Z).

Definition scan (s : string) : Literal :=
  let '(neg, s0) := sign (trim_start s) in
  if String.prefix "Infinity" s0 then Infinite neg else
  let '(ip, ni, s1) := digits s0 0 0 in
  let '(m, nf, s2) :=
    match s1 with
    | String "." r => digits r ip 0
    | _ => (ip, 0, s1)
    end in
  if ni + nf =? 0 then NotANumber
  else Decimal neg m (exponent s2 - nf).

Definition round (l : Literal) : number :=
  match l with
  | NotANumber => S754_nan
  | Infinite neg => S754_infinity neg
  | Decimal neg m e10 =>
      if m =? 0 then S754_zero neg else with_sign neg (of_decimal m e10)
  end.

Definition parseFloat (s : string) : number := round (scan s).

(** *** [String.prototype.toUpperCase], on ASCII text *)

Definition upper_ascii (c : ascii) : ascii :=
  let n := nat_of_ascii c in
  if (Nat.leb 97 n && Nat.leb n 122)%bool
  then ascii_of_nat (n - 32) else c.

Fixpoint toUpperCase (s : string) : string :=
  match s with
  | String c r => String (upper_ascii c) (toUpperCase r)
  | EmptyString => EmptyString
  end.

End Js.


(** ** Entities *)

(** A [decimal(18,7)] column.  The driver hands such a column over as its
    decimal text, which is why the service reads it through
    [parseFloat(String(...))]; the text is what the tables keep. *)
Abbreviation decimal := string.

(** [ContributionStatus] *)
Inductive ContributionStatus : Type :=
| PENDING
| CONFIRMED
| FAILED.

#[global] Instance ContributionStatus_eq_dec : EqDecision ContributionStatus.
Proof. solve_decision. Defined.

Module Tier.

(** Modelled from the spec: the entity class [SponsorTier]
    (src/sponsors/entities/sponsor-tier.entity.ts) is not among the
    sources.  Section 3 gives it an identifier, a name, a price (decimal
    with 7 fractional digits) and a maximum sponsor count; these are the
    four fields the service reads. *)
Record SponsorTier : Type := {
  id : string;
  name : string;
  price : decimal;
  maxSponsors : Z;
}.

(** The columns of a [sponsor_tiers] row besides its primary key. *)
Record Row : Type := {
  row_name : string;
  row_price : decimal;
  row_maxSponsors : Z;
}.

Definition hydrate (key : string) (r : Row) : SponsorTier :=
  {| id := key; name := row_name r; price := row_price r;
     maxSponsors := row_maxSponsors r |}.

End Tier.

Module Contribution.

(** [SponsorContribution]; [tier] is the many-to-one relation, present
    only when a query asked for it and the joined row exists. *)
Record SponsorContribution : Type := {
  id : string;
  sponsorId : string;
  tierId : string;
  tier : option Tier.SponsorTier;
  amount : decimal;
  transactionHash : option string;
  status : ContributionStatus;
  createdAt : Z;
}.

(** The columns of a [sponsor_contributions] row besides its primary
    key. *)
Record Row : Type := {
  row_sponsorId : string;
  row_tierId : string;
  row_amount : decimal;
  row_transactionHash : option string;
  row_status : ContributionStatus;
  row_createdAt : Z;
}.

(** What [repository.create] is given: everything the database does not
    fill in by itself. *)
Record Draft : Type := {
  draft_sponsorId : string;
  draft_tierId : string;
  draft_amount : decimal;
  draft_transactionHash : option string;
  draft_status : ContributionStatus;
}.

Definition to_row (c : SponsorContribution) : Row :=
  {| row_sponsorId := sponsorId c; row_tierId := tierId c;
     row_amount := amount c; row_transactionHash := transactionHash c;
     row_status := status c; row_createdAt := createdAt c |}.

Definition hydrate (key : string) (r : Row)
    (t : option Tier.SponsorTier) : SponsorContribution :=
  {| id := key; sponsorId := row_sponsorId r; tierId := row_tierId r;
     tier := t; amount := row_amount r;
     transactionHash := row_transactionHash r; status := row_status r;
     createdAt := row_createdAt r |}.

Definition stamp (d : Draft) (now : Z) : Row :=
  {| row_sponsorId := draft_sponsorId d; row_tierId := draft_tierId d;
     row_amount := draft_amount d;
     row_transactionHash := draft_transactionHash d;
     row_status := draft_status d; row_createdAt := now |}.

(** [contribution.status = s] *)
Definition set_status (s : ContributionStatus)
    (c : SponsorContribution) : SponsorContribution :=
  {| id := id c; sponsorId := sponsorId c; tierId := tierId c;
     tier := tier c; amount := amount c;
     transactionHash := transactionHash c; status := s;
     createdAt := createdAt c |}.

(** [contribution.transactionHash = h] *)
Definition set_transactionHash (h : option string)
    (c : SponsorContribution) : SponsorContribution :=
  {| id := id c; sponsorId := sponsorId c; tierId := tierId c;
     tier := tier c; amount := amount c;
     transactionHash := h; status := status c;
     createdAt := createdAt c |}.

Definition row_set_status (s : ContributionStatus) (r : Row) : Row :=
  {| row_sponsorId := row_sponsorId r; row_tierId := row_tierId r;
     row_amount := row_amount r;
     row_transactionHash := row_transactionHash r;
     row_status := s; row_createdAt := row_createdAt r |}.

(** One column set to a value: a [SET] of an [UPDATE]. *)
Inductive Assignment : Type :=
| SetSponsorId (v : string)
| SetTierId (v : string)
| SetAmount (v : decimal)
| SetTransactionHash (v : option string)
| SetStatus (v : ContributionStatus)
| SetCreatedAt (v : Z).

Definition assign (a : Assignment) (r : Row) : Row :=
  match a with
  | SetSponsorId v =>
      {| row_sponsorId := v; row_tierId := row_tierId r;
         row_amount := row_amount r;
         row_transactionHash := row_transactionHash r;
         row_status := row_status r; row_createdAt := row_createdAt r |}
  | SetTierId v =>
      {| row_sponsorId := row_sponsorId r; row_tierId := v;
         row_amount := row_amount r;
         row_transactionHash := row_transactionHash r;
         row_status := row_status r; row_createdAt := row_createdAt r |}
  | SetAmount v =>
      {| row_sponsorId := row_sponsorId r; row_tierId := row_tierId r;
         row_amount := v;
         row_transactionHash := row_transactionHash r;
         row_status := row_status r; row_createdAt := row_createdAt r |}
  | SetTransactionHash v =>
      {| row_sponsorId := row_sponsorId r; row_tierId := row_tierId r;
         row_amount := row_amount r; row_transactionHash := v;
         row_status := row_status r; row_createdAt := row_createdAt r |}
  | SetStatus v => row_set_status v r
  | SetCreatedAt v =>
      {| row_sponsorId := row_sponsorId r; row_tierId := row_tierId r;
         row_amount := row_amount r;
         row_transactionHash := row_transactionHash r;
         row_status := row_status r; row_createdAt := v |}
  end.

(** The assignments of an [UPDATE], carried out on a row. *)
Definition apply (set : list Assignment) (r : Row) : Row :=
  fold_left (fun r a => assign a r) set r.

(** What [repository.save] updates: the columns in which the entity
    differs from the row it has read. *)
Definition changes (stored entity : Row) : list Assignment :=
  ((if bool_decide (row_sponsorId stored = row_sponsorId entity)
    then [] else [SetSponsorId (row_sponsorId entity)])
   ++ (if bool_decide (row_tierId stored = row_tierId entity)
       then [] else [SetTierId (row_tierId entity)])
   ++ (if bool_decide (row_amount stored = row_amount entity)
       then [] else [SetAmount (row_amount entity)])
   ++ (if bool_decide (row_transactionHash stored
                       = row_transactionHash entity)
       then [] else [SetTransactionHash (row_transactionHash entity)])
   ++ (if bool_decide (row_status stored = row_status entity)
       then [] else [SetStatus (row_status entity)])
   ++ (if bool_decide (row_createdAt stored = row_createdAt entity)
       then [] else [SetCreatedAt (row_createdAt entity)]))%list.

End Contribution.

Module Intent.

(** [ContributionIntent] *)
Record ContributionIntent : Type := {
  contributionId : string;
  escrowWallet : string;
  amount : decimal;
  currency : string;
  memo : string;
}.

End Intent.

(** [PaymentOp] *)
Record PaymentOp : Type := {
  type : string;
  to : string;
  amount : string;
  asset_type : string;
  asset_code : option string;
}.

(** ** Messages, exceptions, audit events *)

(** A template literal keeps its numeric holes as numbers: how the runtime
    prints a double is not part of the service. *)
Inductive Fragment : Type :=
| Text (s : string)
| Float (x : Js.number)
| Int (z : Z).

Abbreviation Message := (list Fragment).

Definition quoted (s : string) : string :=
  String (ascii_of_nat 34) s +:+ String (ascii_of_nat 34) EmptyString.

Inductive Exception : Type :=
| BadRequestException (message : Message)
| NotFoundException (message : Message)
| ConflictException (message : Message)
| TypeError
| QueryFailedError
| NetworkError.

(** Modelled from the spec: the audit module (src/audit) is not among the
    sources.  Section 6 has the recorder take [{action, userId, resourceId,
    meta}]; the actions and the three shapes of [meta] are those the
    service passes. *)
Inductive AuditAction : Type :=
| PAYMENT_INTENT_CREATED
| PAYMENT_CONFIRMED
| PAYMENT_FAILED.

Inductive AuditMeta : Type :=
| MetaIntent (tierId : string) (amount : decimal) (currency : string)
| MetaConfirmed (transactionHash : string) (tierId : string)
    (amount : decimal)
| MetaFailed (reason : Message).

Record AuditEvent : Type := {
  action : AuditAction;
  userId : string;
  resourceId : string;
  meta : AuditMeta;
}.

(** ** The collaborators' answers *)

(** How a promise settles. *)
Inductive Settled (R : Type) : Type :=
| Fulfilled (r : R)
| Rejected (e : Exception).
Arguments Fulfilled {R} r.
Arguments Rejected {R} e.

(** Modelled from the spec: the ledger client [StellarService]
    (src/stellar) is not among the sources.  Section 6 has its
    [getTransaction] answer a record that carries at least a memo and a
    link to fetch its operations, or fail; the service reads [memo] and
    [_links.operations?.href] of it. *)
Record Link : Type := { href : option string }.
Record Links : Type := { operations : option Link }.
Record TransactionRecord : Type := {
  memo : Js.Value;
  _links : option Links;
}.

(** The body of the operations page: [_embedded.records] when it has the
    expected shape. *)
Inductive Json : Type :=
| Shapeless
| Embedded (records : list PaymentOp).

(** A [fetch] response. *)
Record Response : Type := {
  ok : bool;
  json : Settled Json;
}.

(** ** Awaited calls and asynchronous programs *)

(** The calls the service awaits, indexed by what they resolve to. *)
Inductive Eff : Type -> Type :=
| TierFindOne (id : string) : Eff (option Tier.SponsorTier)
| ContributionInsert (d : Contribution.Draft)
    : Eff Contribution.SponsorContribution
| ContributionFindOne (id : string) (status : ContributionStatus)
    : Eff (option Contribution.SponsorContribution)
| ContributionSelect (id : string) : Eff (option Contribution.Row)
| ContributionUpdate (id : string) (set : list Contribution.Assignment)
    : Eff unit
| ContributionInsertAs (id : string) (r : Contribution.Row) : Eff unit
| ContributionCount (tierId : string) (status : ContributionStatus)
    (excludeId : option string) : Eff nat
| AuditLog (e : AuditEvent) : Eff unit
| GetTransaction (hash : string) : Eff TransactionRecord
| Fetch (url : string) : Eff Response
| ResponseJson (res : Response) : Eff Json.

(** An [async] function body: it returns, throws, or awaits a call and
    goes on with how the call settled. *)
Inductive Prog (A : Type) : Type :=
| Ret (a : A)
| Throw (e : Exception)
| Await {R : Type} (op : Eff R) (k : Settled R -> Prog A).
Arguments Ret {A} a.
Arguments Throw {A} e.
Arguments Await {A R} op k.

Fixpoint bind {A B : Type} (p : Prog A) (f : A -> Prog B) : Prog B :=
  match p with
  | Ret a => f a
  | Throw e => Throw e
  | Await op k => Await op (fun s => bind (k s) f)
  end.

(** [await op]: a rejection is rethrown at the await. *)
Definition await {R : Type} (op : Eff R) : Prog R :=
  Await op (fun s =>
    match s with
    | Fulfilled r => Ret r
    | Rejected e => Throw e
    end).

(** [try { p } catch { h }] *)
Fixpoint try_catch {A : Type} (p : Prog A) (h : Exception -> Prog A)
    : Prog A :=
  match p with
  | Ret a => Ret a
  | Throw e => h e
  | Await op k => Await op (fun s => try_catch (k s) h)
  end.

Notation "'let*' x ':=' p 'in' q" := (bind p (fun x => q))
  (at level 10, x name, p at level 100, q at level 200,
   format "'[v' 'let*'  x  :=  p  'in'  '/' q ']'").

(** ** The world the calls act on *)

Record World : Type := {
  (** the [sponsor_tiers] table, by primary key *)
  tiers : gmap string Tier.Row;
  (** the [sponsor_contributions] table, by primary key *)
  contributions : gmap string Contribution.Row;
  (** what the audit recorder has been given, oldest first *)
  audit : list AuditEvent;
  (** the texts the identifier column of that table takes as a key: all
      of them where the column is a character column, the uuid texts
      where it is of a native uuid type *)
  accepts : string -> bool;
  (** the identifiers the database draws for new rows, and how many it
      has drawn *)
  uuid : nat -> string;
  issued : nat;
  (** the database clock *)
  now : Z;
  (** the ledger: [StellarService.getTransaction] *)
  ledger : string -> Settled TransactionRecord;
  (** the network: [fetch] *)
  network : string -> Settled Response;
}.

Definition with_contributions (m : gmap string Contribution.Row)
    (w : World) : World :=
  {| tiers := tiers w; contributions := m; audit := audit w;
     accepts := accepts w; uuid := uuid w; issued := issued w; now := now w;
     ledger := ledger w; network := network w |}.

Definition with_audit (l : list AuditEvent) (w : World) : World :=
  {| tiers := tiers w; contributions := contributions w; audit := l;
     accepts := accepts w; uuid := uuid w; issued := issued w; now := now w;
     ledger := ledger w; network := network w |}.

Definition with_issued (n : nat) (w : World) : World :=
  {| tiers := tiers w; contributions := contributions w; audit := audit w;
     accepts := accepts w; uuid := uuid w; issued := n; now := now w;
     ledger := ledger w; network := network w |}.

Definition with_tiers (m : gmap string Tier.Row) (w : World) : World :=
  {| tiers := m; contributions := contributions w; audit := audit w;
     accepts := accepts w; uuid := uuid w; issued := issued w; now := now w;
     ledger := ledger w; network := network w |}.

(** The rows a count query selects: those of the tier, in the status, and
    (when an identifier to exclude was bound) with another identifier. *)
Definition selected (tierId : string) (status : ContributionStatus)
    (excludeId : option string) (kr : string * Contribution.Row) : bool :=
  (String.eqb (Contribution.row_tierId kr.2) tierId
   && bool_decide (Contribution.row_status kr.2 = status)
   && match excludeId with
      | Some x => negb (String.eqb kr.1 x)
      | None => true
      end)%bool.

Definition count (m : gmap string Contribution.Row) (tierId : string)
    (status : ContributionStatus) (excludeId : option string) : nat :=
  size (filter (fun kr => selected tierId status excludeId kr = true) m).

(** [findOne({ where: { id, status }, relations: ['tier'] })]: what the
    lookup resolves to once the database has taken [id] as a key.  Where
    it does not take it, the lookup is rejected: see [refused] and
    [perform]. *)
Definition find_one (w : World) (id : string) (status : ContributionStatus)
    : option Contribution.SponsorContribution :=
  match contributions w !! id with
  | Some r =>
      if bool_decide (Contribution.row_status r = status)
      then Some (Contribution.hydrate id r
                   (Tier.hydrate (Contribution.row_tierId r)
                      <$> tiers w !! Contribution.row_tierId r))
      else None
  | None => None
  end.

(** A new row gets the next identifier the database draws; the primary key
    refuses one that is taken. *)
Definition insert_row (w : World) (d : Contribution.Draft)
    : Settled Contribution.SponsorContribution * World :=
  let key := uuid w (issued w) in
  let w1 := with_issued (S (issued w)) w in
  match contributions w !! key with
  | Some _ => (Rejected QueryFailedError, w1)
  | None =>
      let r := Contribution.stamp d (now w) in
      (Fulfilled (Contribution.hydrate key r None),
       with_contributions (<[key := r]> (contributions w)) w1)
  end.

(** Whether the database refuses to look a text up as an identifier: it
    does when the key column does not take the text.  A text that keys a
    row is one the column takes. *)
Definition refused (w : World) (id : string) : bool :=
  match contributions w !! id with
  | Some _ => false
  | None => negb (accepts w id)
  end.

(** One awaited call, carried out in one piece.  The audit recorder
    answers every call; the database refuses a taken primary key and a
    lookup by a text its key column does not take; the ledger and the
    network may reject.  The identifiers of entities are texts the key
    column takes. *)
Definition perform {R : Type} (op : Eff R) (w : World)
    : Settled R * World :=
  match op in Eff R return Settled R * World with
  | TierFindOne id => (Fulfilled (Tier.hydrate id <$> tiers w !! id), w)
  | ContributionInsert d => insert_row w d
  | ContributionFindOne id status =>
      if refused w id then (Rejected QueryFailedError, w)
      else (Fulfilled (find_one w id status), w)
  | ContributionSelect id => (Fulfilled (contributions w !! id), w)
  | ContributionUpdate id set =>
      (Fulfilled tt,
       with_contributions
         (alter (Contribution.apply set) id (contributions w)) w)
  | ContributionInsertAs id r =>
      match contributions w !! id with
      | Some _ => (Rejected QueryFailedError, w)
      | None =>
          (Fulfilled tt,
           with_contributions (<[id := r]> (contributions w)) w)
      end
  | ContributionCount tierId status excludeId =>
      (Fulfilled (count (contributions w) tierId status excludeId), w)
  | AuditLog e => (Fulfilled tt, with_audit (audit w ++ [e]) w)
  | GetTransaction hash => (ledger w hash, w)
  | Fetch url => (network w url, w)
  | ResponseJson res => (json res, w)
  end.

(** One invocation on its own: every call is performed as soon as it is
    awaited. *)
Fixpoint run {A : Type} (p : Prog A) (w : World) : (Exception + A) * World :=
  match p with
  | Ret a => (inr a, w)
  | Throw e => (inl e, w)
  | Await op k => let '(s, w') := perform op w in run (k s) w'
  end.

(** Several invocations in flight: a step performs the one call the chosen
    invocation is waiting on. *)
Definition step {A : Type} (p : Prog A) (w : World) : Prog A * World :=
  match p with
  | Await op k => let '(s, w') := perform op w in (k s, w')
  | _ => (p, w)
  end.

Fixpoint run_pool {A : Type} (schedule : list nat) (pool : list (Prog A))
    (w : World) : list (Prog A) * World :=
  match schedule with
  | [] => (pool, w)
  | i :: rest =>
      match pool !! i with
      | Some p =>
          let '(p', w') := step p w in
          run_pool rest (<[i := p']> pool) w'
      | None => run_pool rest pool w
      end
  end.

(** The calls an invocation on its own makes, in order. *)
Inductive Request : Type :=
| request {R : Type} (op : Eff R).

Fixpoint requests {A : Type} (p : Prog A) (w : World) : list Request :=
  match p with
  | Await op k =>
      let '(s, w') := perform op w in request op :: requests (k s) w'
  | _ => []
  end.

(** ** The service *)

Definition SUPPORTED_ASSETS : list string := ["XLM"; "USDC"].

(** [Array.prototype.includes] on strings *)
Definition includes (l : list string) (s : string) : bool :=
  existsb (String.eqb s) l.

(** The literal [0.0000001] *)
Definition epsilon : Js.number := Js.of_decimal 1 (-7).

(** [Math.abs(onChainAmount - expectedAmount) > 0.0000001] *)
Definition amount_differs (onChainAmount expectedAmount : Js.number) : bool :=
  Js.gt (Js.abs (Js.sub onChainAmount expectedAmount)) epsilon.

(** The asset code of an operation: [XLM] for the native asset, else its
    [asset_code], else the empty string. *)
Definition assetCode (op : PaymentOp) : string :=
  if String.eqb (asset_type op) "native" then "XLM"
  else default "" (asset_code op).

(** [op.type === 'payment' || op.type === 'create_account'] *)
Definition is_payment (op : PaymentOp) : bool :=
  (String.eqb (type op) "payment"
   || String.eqb (type op) "create_account")%bool.

Module Msg.

Definition tier_not_found (id : string) : Message :=
  [Text ("Sponsor tier " +:+ quoted id +:+ " not found.")].

Definition tier_full (t : Tier.SponsorTier) : Message :=
  [Text ("Sponsor tier " +:+ quoted (Tier.name t) +:+ " is full (");
   Int (Tier.maxSponsors t); Text "/"; Int (Tier.maxSponsors t);
   Text " spots taken)."].

Definition tx_not_found (hash : string) : Message :=
  [Text ("Transaction " +:+ quoted hash
         +:+ " not found on the Stellar network.")].

Definition memo_missing : Message :=
  [Text "Transaction memo is missing. Cannot correlate with a contribution intent."].

Definition no_pending (memoValue : string) : Message :=
  [Text ("No pending contribution found for memo "
         +:+ quoted memoValue +:+ ".")].

Definition no_ops_reason : Message :=
  [Text "No payment operations in transaction."].

Definition no_ops : Message :=
  [Text "Transaction contains no payment operations."].

Definition wrong_destination_reason (wallet : string) : Message :=
  [Text ("Incorrect destination. Expected " +:+ wallet +:+ ".")].

Definition wrong_destination : Message :=
  [Text "Payment destination does not match the escrow wallet."].

Definition unsupported_reason (code : string) : Message :=
  [Text ("Unsupported asset " +:+ quoted code +:+ ".")].

Definition unsupported (code : string) : Message :=
  [Text ("Asset " +:+ quoted code +:+ " is not supported.")].

Definition wrong_amount_reason (expected got : Js.number) : Message :=
  [Text "Incorrect amount. Expected "; Float expected; Text ", got ";
   Float got; Text "."].

Definition wrong_amount (expected got : Js.number) : Message :=
  [Text "Incorrect contribution amount. Expected "; Float expected;
   Text ", received "; Float got; Text "."].

End Msg.

Section ContributionsService.

(** [this.escrowWallet], read from the configuration once, the empty
    string when the key is not set. *)
Variable escrowWallet : string.

Definition getTierById (id : string) : Prog Tier.SponsorTier :=
  let* tier := await (TierFindOne id) in
  match tier with
  | None => Throw (NotFoundException (Msg.tier_not_found id))
  | Some tier => Ret tier
  end.

(** Count confirmed contributions for a tier and throw if at capacity;
    [excludeId] skips the current contribution when re-checking on
    confirm. *)
Definition assertCapacityAvailable (tier : Tier.SponsorTier)
    (excludeId : option string) : Prog unit :=
  let* confirmedCount :=
    await (ContributionCount (Tier.id tier) CONFIRMED
             (if Js.truthy excludeId then excludeId else None)) in
  if Tier.maxSponsors tier <=? Z.of_nat confirmedCount
  then Throw (ConflictException (Msg.tier_full tier))
  else Ret tt.

Definition resolvePaymentOperations (txRecord : TransactionRecord)
    : Prog (list PaymentOp) :=
  try_catch
    (match _links txRecord with
     | None => Throw TypeError
     | Some links =>
         let opsHref : option string := operations links ≫= href in
         if negb (Js.truthy opsHref) then Ret []
         else
           let* res := await (Fetch (default "" opsHref)) in
           if negb (ok res) then Ret []
           else
             let* json := await (ResponseJson res) in
             match json with
             | Shapeless => Throw TypeError
             | Embedded records => Ret (List.filter is_payment records)
             end
     end)
    (fun _ => Ret []).

(** [contributionRepository.save] of an entity that has its identifier.
    The row is read; where there is none the entity is inserted; else the
    columns in which the entity differs from the row read are updated, if
    there are any.  The read and the write are two calls. *)
Definition save (c : Contribution.SponsorContribution)
    : Prog Contribution.SponsorContribution :=
  let* stored := await (ContributionSelect (Contribution.id c)) in
  match stored with
  | None =>
      let* _ := await (ContributionInsertAs (Contribution.id c)
                         (Contribution.to_row c)) in
      Ret c
  | Some r =>
      match Contribution.changes r (Contribution.to_row c) with
      | [] => Ret c
      | set =>
          let* _ := await (ContributionUpdate (Contribution.id c) set) in
          Ret c
      end
  end.

Definition markFailed (contribution : Contribution.SponsorContribution)
    (reason : Message) : Prog unit :=
  let contribution := Contribution.set_status FAILED contribution in
  let* _ := save contribution in
  let* _ := await (AuditLog
    {| action := PAYMENT_FAILED;
       userId := Contribution.sponsorId contribution;
       resourceId := Contribution.id contribution;
       meta := MetaFailed reason |}) in
  Ret tt.

(** STEP 1 - create contribution intent *)
Definition createIntent (tierId sponsorId : string)
    : Prog Intent.ContributionIntent :=
  let* tier := getTierById tierId in
  let resolvedCurrency := "XLM" in
  let* _ := assertCapacityAvailable tier None in
  let* saved := await (ContributionInsert
    {| Contribution.draft_sponsorId := sponsorId;
       Contribution.draft_tierId := tierId;
       Contribution.draft_amount := Tier.price tier;
       Contribution.draft_transactionHash := None;
       Contribution.draft_status := PENDING |}) in
  let* _ := await (AuditLog
    {| action := PAYMENT_INTENT_CREATED;
       userId := sponsorId;
       resourceId := Contribution.id saved;
       meta := MetaIntent tierId (Tier.price tier) resolvedCurrency |}) in
  Ret {| Intent.contributionId := Contribution.id saved;
         Intent.escrowWallet := escrowWallet;
         Intent.amount := Tier.price tier;
         Intent.currency := resolvedCurrency;
         Intent.memo := Contribution.id saved |}.

(** The body of [confirmContribution] is given in four parts, the last
    first.  [settle] is its steps 7 and 8: the capacity re-check, then the
    commit.  [contribution.tier] is read for the re-check; without the
    joined row there is nothing to read it from. *)
Definition settle (transactionHash : string)
    (contribution : Contribution.SponsorContribution)
    : Prog Contribution.SponsorContribution :=
  match Contribution.tier contribution with
  | None => Throw TypeError
  | Some tier =>
      let* _ := assertCapacityAvailable tier
                  (Some (Contribution.id contribution)) in
      let contribution :=
        Contribution.set_status CONFIRMED
          (Contribution.set_transactionHash (Some transactionHash)
             contribution) in
      let* confirmed := save contribution in
      let* _ := await (AuditLog
        {| action := PAYMENT_CONFIRMED;
           userId := Contribution.sponsorId contribution;
           resourceId := Contribution.id contribution;
           meta := MetaConfirmed transactionHash
                     (Contribution.tierId contribution)
                     (Contribution.amount contribution) |}) in
      Ret confirmed
  end.

(** Steps 5 and 6 of [confirmContribution], the asset and the amount of
    the operation that pays the escrow wallet, then [settle]. *)
Definition validate (transactionHash : string)
    (contribution : Contribution.SponsorContribution)
    (matchingOp : PaymentOp) : Prog Contribution.SponsorContribution :=
  let assetCode := assetCode matchingOp in
  if negb (includes SUPPORTED_ASSETS (Js.toUpperCase assetCode)) then
    let* _ := markFailed contribution (Msg.unsupported_reason assetCode) in
    Throw (BadRequestException (Msg.unsupported assetCode))
  else
    let onChainAmount := Js.parseFloat (amount matchingOp) in
    let expectedAmount :=
      Js.parseFloat (Contribution.amount contribution) in
    if amount_differs onChainAmount expectedAmount then
      let* _ := markFailed contribution
                  (Msg.wrong_amount_reason expectedAmount onChainAmount) in
      Throw (BadRequestException
               (Msg.wrong_amount expectedAmount onChainAmount))
    else settle transactionHash contribution.

(** Steps 3 and 4 of [confirmContribution], the operations of the
    transaction and the first of them that pays the escrow wallet, then
    [validate]. *)
Definition verify (transactionHash : string)
    (txRecord : TransactionRecord)
    (contribution : Contribution.SponsorContribution)
    : Prog Contribution.SponsorContribution :=
  let* ops := resolvePaymentOperations txRecord in
  if Nat.eqb (length ops) 0 then
    let* _ := markFailed contribution Msg.no_ops_reason in
    Throw (BadRequestException Msg.no_ops)
  else
    match List.find (fun op => String.eqb (to op) escrowWallet) ops with
    | None =>
        let* _ := markFailed contribution
                    (Msg.wrong_destination_reason escrowWallet) in
        Throw (BadRequestException Msg.wrong_destination)
    | Some matchingOp => validate transactionHash contribution matchingOp
    end.

(** STEP 2 - confirm contribution.  Steps 1 and 2, the transaction and the
    contribution its memo names, then [verify]. *)
Definition confirmContribution (transactionHash : string)
    : Prog Contribution.SponsorContribution :=
  Await (GetTransaction transactionHash) (fun settled =>
    match settled with
    | Rejected _ =>
        Throw (BadRequestException (Msg.tx_not_found transactionHash))
    | Fulfilled txRecord =>
        let memoValue := Js.string_or_undefined (memo txRecord) in
        if negb (Js.truthy memoValue) then
          Throw (BadRequestException Msg.memo_missing)
        else
          let memoValue := default "" memoValue in
          let* contribution :=
            await (ContributionFindOne memoValue PENDING) in
          match contribution with
          | None => Throw (NotFoundException (Msg.no_pending memoValue))
          | Some contribution =>
              verify transactionHash txRecord contribution
          end
    end).

End ContributionsService.

(** ** Worlds the properties speak of *)

(** The world after [markFailed]: the row of the contribution rewritten
    with status [FAILED], one audit event appended. *)
Definition marked_failed (c : Contribution.SponsorContribution)
    (reason : Message) (w : World) : World :=
  with_audit
    (audit w ++
     [{| action := PAYMENT_FAILED; userId := Contribution.sponsorId c;
         resourceId := Contribution.id c; meta := MetaFailed reason |}])
    (with_contributions
       (<[Contribution.id c :=
            Contribution.to_row (Contribution.set_status FAILED c)]>
          (contributions w)) w).

(** What [resolvePaymentOperations] comes back with in a world. *)
Definition operations_of (w : World) (tx : TransactionRecord)
    : list PaymentOp :=
  match run (resolvePaymentOperations tx) w with
  | (inr ops, _) => ops
  | (inl _, _) => []
  end.

(** The entity [confirmContribution] returns, and the world after its
    commit: the row rewritten with the hash and status [CONFIRMED], one
    audit event appended. *)
Definition confirmed_entity (hash : string)
    (c : Contribution.SponsorContribution) : Contribution.SponsorContribution :=
  Contribution.set_status CONFIRMED
    (Contribution.set_transactionHash (Some hash) c).

Definition committed (hash : string) (c : Contribution.SponsorContribution)
    (w : World) : World :=
  with_audit
    (audit w ++
     [{| action := PAYMENT_CONFIRMED; userId := Contribution.sponsorId c;
         resourceId := Contribution.id c;
         meta := MetaConfirmed hash (Contribution.tierId c)
                   (Contribution.amount c) |}])
    (with_contributions
       (<[Contribution.id c := Contribution.to_row (confirmed_entity hash c)]>
          (contributions w)) w).

(** A memo the correlation cannot use: not a string, or the empty one. *)
Definition memo_unusable (v : Js.Value) : Prop :=
  (forall s, v <> Js.Str s) \/ v = Js.Str "".

(** The ways the secondary fetch of the operations can go wrong: the record
    carries no link, the request is rejected, the response is not ok, its
    body cannot be read or has not the expected shape. *)
Inductive FetchFault (w : World) (tx : TransactionRecord) : Prop :=
| fault_no_links :
    _links tx = None -> FetchFault w tx
| fault_no_href (links : Links) :
    _links tx = Some links ->
    Js.truthy (operations links ≫= href) = false -> FetchFault w tx
| fault_rejected (links : Links) (url : string) (e : Exception) :
    _links tx = Some links -> operations links ≫= href = Some url ->
    network w url = Rejected e -> FetchFault w tx
| fault_not_ok (links : Links) (url : string) (res : Response) :
    _links tx = Some links -> operations links ≫= href = Some url ->
    network w url = Fulfilled res -> ok res = false -> FetchFault w tx
| fault_body_rejected (links : Links) (url : string) (res : Response)
    (e : Exception) :
    _links tx = Some links -> operations links ≫= href = Some url ->
    network w url = Fulfilled res -> json res = Rejected e ->
    FetchFault w tx
| fault_body_shapeless (links : Links) (url : string) (res : Response) :
    _links tx = Some links -> operations links ≫= href = Some url ->
    network w url = Fulfilled res -> json res = Fulfilled Shapeless ->
    FetchFault w tx.

(** The errors [settle], [validate] and [verify] can end in. *)
Inductive VerifyError : Exception -> Prop :=
| ve_no_ops : VerifyError (BadRequestException Msg.no_ops)
| ve_destination : VerifyError (BadRequestException Msg.wrong_destination)
| ve_asset (code : string) :
    VerifyError (BadRequestException (Msg.unsupported code))
| ve_amount (x y : Js.number) :
    VerifyError (BadRequestException (Msg.wrong_amount x y))
| ve_conflict (t : Tier.SponsorTier) :
    VerifyError (ConflictException (Msg.tier_full t))
| ve_type : VerifyError TypeError.


(** No tier holds more confirmed contributions than it has places. *)
Definition within_capacity (w : World) : Prop :=
  forall tierId tr,
    tiers w !! tierId = Some tr ->
    Z.of_nat (count (contributions w) tierId CONFIRMED None)
      <= Tier.row_maxSponsors tr.

(** The organiser changes the price of the tiers: the same world with
    every price put through [f]. *)
Definition reprice_row (f : decimal -> decimal) (tr : Tier.Row) : Tier.Row :=
  {| Tier.row_name := Tier.row_name tr; Tier.row_price := f (Tier.row_price tr);
     Tier.row_maxSponsors := Tier.row_maxSponsors tr |}.

Definition reprice (f : decimal -> decimal) (w : World) : World :=
  with_tiers (reprice_row f <$> tiers w) w.

(** What a caller or an observer of the tables sees of a result: the error,
    or the columns of the confirmed contribution. *)
Definition columns (res : Exception + Contribution.SponsorContribution)
    : Exception + string * Contribution.Row :=
  match res with
  | inl e => inl e
  | inr c => inr (Contribution.id c, Contribution.to_row c)
  end.

(** The calls the controller forwards to the service, and what they
    answer. *)
Inductive Call : Type :=
| CreateIntent (tierId sponsorId : string)
| ConfirmContribution (transactionHash : string).

Inductive Reply : Type :=
| Intended (intent : Intent.ContributionIntent)
| Confirmed (contribution : Contribution.SponsorContribution).

Definition serve (escrowWallet : string) (call : Call) : Prog Reply :=
  match call with
  | CreateIntent tierId sponsorId =>
      let* intent := createIntent escrowWallet tierId sponsorId in
      Ret (Intended intent)
  | ConfirmContribution transactionHash =>
      let* contribution := confirmContribution escrowWallet transactionHash in
      Ret (Confirmed contribution)
  end.

(** The world after a call run to its end, and after a series of calls,
    each run to its end before the next begins. *)
Definition invoke (escrowWallet : string) (w : World) (call : Call) : World :=
  snd (run (serve escrowWallet call) w).

Definition history (escrowWallet : string) (calls : list Call) (w : World)
    : World :=
  fold_left (invoke escrowWallet) calls w.

(** ** A running example

    The scenario of section 8 of the specification: one tier, price
    100.0000000, room for one sponsor; an escrow wallet; a ledger and a
    network that know a handful of transactions. *)

Module Scenario.

Definition wallet : string := "GESCROW".

Definition gold : Tier.Row :=
  {| Tier.row_name := "Gold"; Tier.row_price := "100.0000000";
     Tier.row_maxSponsors := 1 |}.

Definition row (sponsor : string) (amt : decimal)
    (hash : option string) (st : ContributionStatus) : Contribution.Row :=
  {| Contribution.row_sponsorId := sponsor;
     Contribution.row_tierId := "tier-1";
     Contribution.row_amount := amt;
     Contribution.row_transactionHash := hash;
     Contribution.row_status := st;
     Contribution.row_createdAt := 0 |}.

Definition payment (dest amt : string) : PaymentOp :=
  {| type := "payment"; to := dest; amount := amt;
     asset_type := "native"; asset_code := None |}.

Definition tx (memoValue : Js.Value) (url : string) : TransactionRecord :=
  {| memo := memoValue;
     _links := Some {| operations := Some {| href := Some url |} |} |}.

Definition page (ops : list PaymentOp) : Settled Response :=
  Fulfilled {| ok := true; json := Fulfilled (Embedded ops) |}.

Definition the_ledger (hash : string) : Settled TransactionRecord :=
  if String.eqb hash "h1" then Fulfilled (tx (Js.Str "c1") "ops/exact")
  else if String.eqb hash "h2" then Fulfilled (tx (Js.Str "c2") "ops/exact")
  else if String.eqb hash "h-none" then Fulfilled (tx Js.Undefined "ops/exact")
  else if String.eqb hash "h-empty" then Fulfilled (tx (Js.Str "") "ops/exact")
  else if String.eqb hash "h-down" then Fulfilled (tx (Js.Str "c1") "ops/down")
  else if String.eqb hash "h-else" then Fulfilled (tx (Js.Str "c1") "ops/else")
  else if String.eqb hash "h-two" then Fulfilled (tx (Js.Str "c1") "ops/two")
  else if String.eqb hash "h-near" then Fulfilled (tx (Js.Str "c1") "ops/near")
  else if String.eqb hash "h-off" then Fulfilled (tx (Js.Str "c1") "ops/off")
  else if String.eqb hash "h-big" then Fulfilled (tx (Js.Str "c1") "ops/big")
  else Rejected NetworkError.

Definition the_network (url : string) : Settled Response :=
  if String.eqb url "ops/exact" then page [payment wallet "100.0000000"]
  else if String.eqb url "ops/else" then page [payment "GOTHER" "100.0000000"]
  else if String.eqb url "ops/two" then
    page [payment "GOTHER" "1.0000000"; payment wallet "100.0000000";
          payment wallet "5.0000000"]
  else if String.eqb url "ops/near" then page [payment wallet "100.00000001"]
  else if String.eqb url "ops/off" then page [payment wallet "100.000001"]
  else if String.eqb url "ops/big" then
    page [payment wallet "20000000000.0000010"]
  else Rejected NetworkError.

Definition the_uuid (n : nat) : string :=
  "c" +:+ String (ascii_of_nat (49 + n)) EmptyString.

Definition world (rows : gmap string Contribution.Row) : World :=
  {| tiers := {[ "tier-1" := gold ]}; contributions := rows; audit := [];
     accepts := fun _ => true;
     uuid := the_uuid; issued := size rows; now := 0;
     ledger := the_ledger; network := the_network |}.

(** No contribution yet. *)
Definition fresh : World := world ∅.

(** One pending contribution, [c1]. *)
Definition one_pending : World :=
  world {[ "c1" := row "sponsor-a" "100.0000000" None PENDING ]}.

(** Two pending contributions of the same tier. *)
Definition two_pending : World :=
  world (<[ "c1" := row "sponsor-a" "100.0000000" None PENDING ]>
           {[ "c2" := row "sponsor-b" "100.0000000" None PENDING ]}).

(** [c2] confirmed before [c1]: the tier is full. *)
Definition raced : World :=
  world (<[ "c1" := row "sponsor-a" "100.0000000" None PENDING ]>
           {[ "c2" := row "sponsor-b" "100.0000000" (Some "h2") CONFIRMED ]}).

(** The entity found for the memo [c1] while it is pending. *)
Definition c1 : Contribution.SponsorContribution :=
  Contribution.hydrate "c1" (row "sponsor-a" "100.0000000" None PENDING)
    (Some (Tier.hydrate "tier-1" gold)).

(** What [createIntent] answers in the world without contributions. *)
Definition first_intent : Intent.ContributionIntent :=
  {| Intent.contributionId := "c1"; Intent.escrowWallet := wallet;
     Intent.amount := "100.0000000"; Intent.currency := "XLM";
     Intent.memo := "c1" |}.

(** A tier priced at twenty billion, and a pending contribution of it. *)
Definition platinum : Tier.Row :=
  {| Tier.row_name := "Platinum"; Tier.row_price := "20000000000.0000000";
     Tier.row_maxSponsors := 1 |}.

Definition large : World :=
  with_tiers {[ "tier-1" := platinum ]}
    (world {[ "c1" := row "sponsor-a" "20000000000.0000000" None PENDING ]}).

(** The calls of two invocations taken in turn, one call each. *)
Definition in_turn : list nat :=
  [0; 1; 0; 1; 0; 1; 0; 1; 0; 1; 0; 1; 0; 1; 0; 1]%nat.

(** The first invocation to its end, then the second. *)
Definition one_by_one : list nat :=
  [0; 0; 0; 0; 0; 0; 0; 0; 1; 1; 1; 1; 1; 1; 1; 1]%nat.


(** The second invocation as far as its operations, then the first to its
    end, then the rest of the second: the read and the update of its
    [save], and its audit event. *)
Definition outrun : list nat :=
  [1; 1; 1; 1; 0; 0; 0; 0; 0; 0; 0; 0; 1; 1; 1]%nat.

End Scenario.

(** ** Further worlds and invariants *)

(** The world after a successful [createIntent]: one identifier drawn, the
    pending row under it, one audit event appended. *)
Definition intended (sponsorId tierId : string) (price : decimal)
    (w : World) : World :=
  with_audit
    (audit w ++
     [{| action := PAYMENT_INTENT_CREATED; userId := sponsorId;
         resourceId := uuid w (issued w);
         meta := MetaIntent tierId price "XLM" |}])
    (with_contributions
       (<[uuid w (issued w) :=
            {| Contribution.row_sponsorId := sponsorId;
               Contribution.row_tierId := tierId;
               Contribution.row_amount := price;
               Contribution.row_transactionHash := None;
               Contribution.row_status := PENDING;
               Contribution.row_createdAt := now w |}]>
          (contributions w))
       (with_issued (S (issued w)) w)).

(** The audit action that goes with a row written in a given status. *)
Definition action_for (st : ContributionStatus) : AuditAction :=
  match st with
  | PENDING => PAYMENT_INTENT_CREATED
  | CONFIRMED => PAYMENT_CONFIRMED
  | FAILED => PAYMENT_FAILED
  end.

(** The columns no call rewrites. *)
Definition same_frozen_columns (r r' : Contribution.Row) : Prop :=
  Contribution.row_sponsorId r' = Contribution.row_sponsorId r /\
  Contribution.row_tierId r' = Contribution.row_tierId r /\
  Contribution.row_amount r' = Contribution.row_amount r /\
  Contribution.row_createdAt r' = Contribution.row_createdAt r.


(** The asset codes the asset stage lets through. *)
Definition supported (code : string) : bool :=
  includes SUPPORTED_ASSETS (Js.toUpperCase code).

(** ** Authentication (src/auth/auth.service.ts)

    [UsersService], [JwtService] and [bcrypt] are collaborators from outside
    the sources; the service is given over any of them. *)

Module Auth.

Module RegisterDto.
(** What [register] reads of a [RegisterDto]. *)
Record t : Type := { email : string; password : string; role : string }.
End RegisterDto.

Module LoginDto.
(** What [login] reads of a [LoginDto]. *)
Record t : Type := { email : string; password : string }.
End LoginDto.

Module User.
(** What the service reads of a user. *)
Record t : Type := { id : string; role : string; passwordHash : string }.
End User.

Module Payload.
(** The payload of the token. *)
Record t : Type := { sub : string; role : string }.
End Payload.

Record Token : Type := { access_token : string }.

(** What [register] and [login] throw: the service's own
    [UnauthorizedException], or what a collaborator rejected with. *)
Inductive Error : Type :=
| UnauthorizedException (message : string)
| Thrown (e : Exception).

Section AuthService.

(** The users the users service keeps. *)
Variable Store : Type.
(** [usersService.createUser] *)
Variable createUser : RegisterDto.t -> Store -> Settled User.t * Store.
(** [usersService.findByEmail] *)
Variable findByEmail : string -> Store -> Settled (option User.t) * Store.
(** [bcrypt.compare] *)
Variable compare : string -> string -> Settled bool.
(** [jwtService.sign]: the token over a payload and the time of signing,
    in seconds, which the signer reads from the clock and stamps into the
    token as its [iat] *)
Variable sign : Payload.t -> Z -> string.

Definition signToken (userId role : string) (iat : Z) : Token :=
  let payload := {| Payload.sub := userId; Payload.role := role |} in
  {| access_token := sign payload iat |}.

(** [register] and [login] are given over what the clock reads when the
    token is signed. *)
Definition register (dto : RegisterDto.t) (s : Store) (iat : Z)
    : (Error + Token) * Store :=
  match createUser
          {| RegisterDto.email := RegisterDto.email dto;
             RegisterDto.password := RegisterDto.password dto;
             RegisterDto.role := RegisterDto.role dto |} s with
  | (Rejected e, s') => (inl (Thrown e), s')
  | (Fulfilled user, s') =>
      (inr (signToken (User.id user) (User.role user) iat), s')
  end.

Definition login (dto : LoginDto.t) (s : Store) (iat : Z)
    : (Error + Token) * Store :=
  match findByEmail (LoginDto.email dto) s with
  | (Rejected e, s') => (inl (Thrown e), s')
  | (Fulfilled None, s') =>
      (inl (UnauthorizedException "Invalid credentials"), s')
  | (Fulfilled (Some user), s') =>
      match compare (LoginDto.password dto) (User.passwordHash user) with
      | Rejected e => (inl (Thrown e), s')
      | Fulfilled false =>
          (inl (UnauthorizedException "Invalid credentials"), s')
      | Fulfilled true =>
          (inr (signToken (User.id user) (User.role user) iat), s')
      end
  end.

End AuthService.

End Auth.

(** ** Further cases of the running example *)

Module Cases.

Definition op (ty dest amt asset_ty : string) (code : option string)
    : PaymentOp :=
  {| type := ty; to := dest; amount := amt; asset_type := asset_ty;
     asset_code := code |}.

Definition the_ledger (hash : string) : Settled TransactionRecord :=
  if String.eqb hash "h-eurt" then
    Fulfilled (Scenario.tx (Js.Str "c1") "ops/eurt")
  else if String.eqb hash "h-words" then
    Fulfilled (Scenario.tx (Js.Str "c1") "ops/words")
  else if String.eqb hash "h-path" then
    Fulfilled (Scenario.tx (Js.Str "c1") "ops/path")
  else Rejected NetworkError.

Definition the_network (url : string) : Settled Response :=
  if String.eqb url "ops/eurt" then
    Scenario.page
      [op "payment" Scenario.wallet "100.0000000" "credit_alphanum4"
         (Some "EURT")]
  else if String.eqb url "ops/words" then
    Scenario.page [op "payment" Scenario.wallet "a hundred" "native" None]
  else if String.eqb url "ops/path" then
    Scenario.page
      [op "path_payment_strict_send" Scenario.wallet "100.0000000" "native"
         None]
  else Rejected NetworkError.

(** The pending contribution [c1] of the running example, with this ledger
    and this network. *)
Definition world : World :=
  {| tiers := tiers Scenario.one_pending;
     contributions := contributions Scenario.one_pending;
     audit := []; accepts := fun _ => true;
     uuid := Scenario.the_uuid; issued := 1; now := 0;
     ledger := the_ledger; network := the_network |}.

(** The world after the first [createIntent] of the running example. *)
Definition after_first_intent : World :=
  intended "sponsor-a" "tier-1" "100.0000000" Scenario.fresh.

(** Collaborators for the authentication service: users kept by e-mail,
    a hash that is the password behind a prefix, a token that spells its
    payload and the second it was signed in (here a single digit). *)
Definition alice : Auth.User.t :=
  {| Auth.User.id := "u1"; Auth.User.role := "sponsor";
     Auth.User.passwordHash := "hash:secret" |}.

Definition findByEmail (email : string) (s : list (string * Auth.User.t))
    : Settled (option Auth.User.t) * list (string * Auth.User.t) :=
  (Fulfilled (snd <$> List.find (fun p => String.eqb (fst p) email) s), s).

Definition createUser (dto : Auth.RegisterDto.t)
    (s : list (string * Auth.User.t))
    : Settled Auth.User.t * list (string * Auth.User.t) :=
  match List.find (fun p => String.eqb (fst p) (Auth.RegisterDto.email dto)) s
  with
  | Some _ => (Rejected (ConflictException [Text "Email already in use"]), s)
  | None =>
      let user :=
        {| Auth.User.id := "u1"; Auth.User.role := "sponsor";
           Auth.User.passwordHash :=
             "hash:" +:+ Auth.RegisterDto.password dto |} in
      (Fulfilled user, (Auth.RegisterDto.email dto, user) :: s)
  end.

Definition compare (password hash : string) : Settled bool :=
  Fulfilled (String.eqb ("hash:" +:+ password) hash).

Definition sign (payload : Auth.Payload.t) (iat : Z) : string :=
  Auth.Payload.sub payload +:+ "." +:+ Auth.Payload.role payload
  +:+ "@" +:+ String (ascii_of_nat (48 + Z.to_nat iat)) EmptyString.

(** A hexadecimal digit. *)
Definition hex (a : ascii) : bool :=
  let n := nat_of_ascii a in
  ((48 <=? n) && (n <=? 57) || (65 <=? n) && (n <=? 70)
   || (97 <=? n) && (n <=? 102))%nat%bool.

(** A text against a pattern of places, each a hexadecimal digit or a
    hyphen. *)
Fixpoint shaped (pattern : list bool) (s : string) : bool :=
  match pattern, s with
  | [], EmptyString => true
  | digit :: pattern, String a s' =>
      (if digit then hex a else Ascii.eqb a "-") && shaped pattern s'
  | _, _ => false
  end.

(** The texts a column of a native uuid type takes as a key: 32
    hexadecimal digits in groups of 8, 4, 4, 4 and 12 with hyphens
    between. *)
Definition is_uuid (s : string) : bool :=
  shaped
    (replicate 8 true ++ false :: replicate 4 true ++ false
     :: replicate 4 true ++ false :: replicate 4 true ++ false
     :: replicate 12 true)%list s.

Definition the_key : string := "6f9619ff-8b86-4d11-b42d-00c04fc964ff".

(** A database whose identifier column is of a native uuid type.  One
    pending contribution under [the_key]; three transactions: one with
    that key as its memo, one with a uuid that keys no row, one with a
    memo that is no uuid. *)
Definition native_uuid : World :=
  {| tiers := {[ "tier-1" := Scenario.gold ]};
     contributions :=
       {[ the_key := Scenario.row "sponsor-a" "100.0000000" None PENDING ]};
     audit := []; accepts := is_uuid;
     uuid := fun _ => "0b0e7a5c-3f1d-4c58-9a77-5d2f4e1c8b90";
     issued := 1; now := 0;
     ledger := fun hash =>
       if String.eqb hash "h-key" then
         Fulfilled (Scenario.tx (Js.Str the_key) "ops/exact")
       else if String.eqb hash "h-absent" then
         Fulfilled
           (Scenario.tx (Js.Str "11111111-2222-4333-8444-555555555555")
              "ops/exact")
       else if String.eqb hash "h-stray" then
         Fulfilled (Scenario.tx (Js.Str "order-42") "ops/exact")
       else Rejected NetworkError;
     network := Scenario.the_network |}.

End Cases.

(** * Properties *)

(** ** The primitives on a few inputs *)

Example parseFloat_examples :
  Js.parseFloat "100.0000000" = S754_finite false 7036874417766400 (-46) /\
  Js.parseFloat "0.1" = S754_finite false 7205759403792794 (-56) /\
  Js.parseFloat "  -12.5e1xyz" = S754_finite true 8796093022208000 (-46) /\
  Js.parseFloat ".5" = S754_finite false 4503599627370496 (-53) /\
  Js.parseFloat "1e" = Js.parseFloat "1" /\
  Js.parseFloat "-0" = S754_zero true /\
  Js.parseFloat "-Infinity" = S754_infinity true /\
  Js.parseFloat "1.8e308" = S754_infinity false /\
  Js.parseFloat "5e-324" = S754_finite false 1 (-1074) /\
  Js.parseFloat "abc" = S754_nan /\
  Js.parseFloat "." = S754_nan.
Proof. repeat split; vm_compute; reflexivity. Qed.

Example epsilon_bits : epsilon = S754_finite false 7555786372591432 (-76).
Proof. vm_compute. reflexivity. Qed.

Example toUpperCase_examples :
  Js.toUpperCase "usdc" = "USDC" /\ Js.toUpperCase "Xlm" = "XLM" /\
  Js.toUpperCase "eurt" = "EURT".
Proof. repeat split. Qed.

Example assetCode_examples :
  assetCode (Scenario.payment "G" "1") = "XLM" /\
  assetCode {| type := "payment"; to := "G"; amount := "1";
               asset_type := "credit_alphanum4"; asset_code := Some "usdc" |}
    = "usdc" /\
  assetCode {| type := "payment"; to := "G"; amount := "1";
               asset_type := "credit_alphanum4"; asset_code := None |}
    = "".
Proof. repeat split. Qed.

(** ** How [run] goes through the combinators *)

Lemma run_bind {A B : Type} (p : Prog A) (f : A -> Prog B) (w : World) :
  run (bind p f) w =
  match run p w with
  | (inl e, w') => (inl e, w')
  | (inr a, w') => run (f a) w'
  end.
Proof.
  revert w. induction p as [a | e | R op k IH]; intros w; simpl; trivial.
  destruct (perform op w) as [s w']. apply IH.
Qed.

Lemma run_try_catch {A : Type} (p : Prog A) (h : Exception -> Prog A)
    (w : World) :
  run (try_catch p h) w =
  match run p w with
  | (inl e, w') => run (h e) w'
  | (inr a, w') => (inr a, w')
  end.
Proof.
  revert w. induction p as [a | e | R op k IH]; intros w; simpl; trivial.
  destruct (perform op w) as [s w']. apply IH.
Qed.

Lemma run_getTierById (id : string) (w : World) :
  run (getTierById id) w =
  match tiers w !! id with
  | Some r => (inr (Tier.hydrate id r), w)
  | None => (inl (NotFoundException (Msg.tier_not_found id)), w)
  end.
Proof. unfold getTierById. simpl. destruct (tiers w !! id); reflexivity. Qed.

Lemma run_assertCapacityAvailable (t : Tier.SponsorTier)
    (excludeId : option string) (w : World) :
  run (assertCapacityAvailable t excludeId) w =
  (if Tier.maxSponsors t
      <=? Z.of_nat (count (contributions w) (Tier.id t) CONFIRMED
                      (if Js.truthy excludeId then excludeId else None))
   then inl (ConflictException (Msg.tier_full t))
   else inr tt, w).
Proof.
  unfold assertCapacityAvailable. simpl.
  destruct (_ <=? _); reflexivity.
Qed.

(** *** [save], run on its own, writes the entity over the row *)

Lemma apply_changes (stored entity : Contribution.Row) :
  Contribution.apply (Contribution.changes stored entity) stored = entity.
Proof.
  destruct stored, entity.
  unfold Contribution.changes, Contribution.apply. simpl.
  repeat case_bool_decide; subst; reflexivity.
Qed.

Lemma with_contributions_same (w : World) :
  with_contributions (contributions w) w = w.
Proof. now destruct w. Qed.

Lemma run_save (c : Contribution.SponsorContribution) (w : World) :
  run (save c) w =
  (inr c,
   with_contributions
     (<[Contribution.id c := Contribution.to_row c]> (contributions w)) w).
Proof.
  unfold save. rewrite run_bind. cbn [await run perform].
  destruct (contributions w !! Contribution.id c) as [r|] eqn:Hr.
  - pose proof (apply_changes r (Contribution.to_row c)) as Happly.
    destruct (Contribution.changes r (Contribution.to_row c)) as [|a set].
    + simpl in Happly. subst r.
      now rewrite insert_id, with_contributions_same.
    + rewrite run_bind. cbn [await run perform].
      rewrite <- (insert_id _ _ _ Hr) at 1.
      now rewrite alter_insert_eq, Happly.
  - rewrite run_bind. cbn [await run perform]. now rewrite Hr.
Qed.

Lemma run_markFailed (c : Contribution.SponsorContribution)
    (reason : Message) (w : World) :
  run (markFailed c reason) w = (inr tt, marked_failed c reason w).
Proof. unfold markFailed. now rewrite run_bind, run_save. Qed.

Section CreateIntent.

Variable escrowWallet : string.

(** C3. On a tier whose confirmed contributions already number
    [maxSponsors] or more, [createIntent] throws Conflict and leaves the
    whole world as it was: no contribution row, no audit event. *)
Theorem createIntent_full_conflict (w : World) (tierId sponsorId : string)
    (r : Tier.Row) :
  tiers w !! tierId = Some r ->
  Tier.row_maxSponsors r
    <= Z.of_nat (count (contributions w) tierId CONFIRMED None) ->
  run (createIntent escrowWallet tierId sponsorId) w =
  (inl (ConflictException (Msg.tier_full (Tier.hydrate tierId r))), w).
Proof.
  intros Htier Hfull. unfold createIntent.
  rewrite run_bind, run_getTierById, Htier.
  rewrite run_bind, run_assertCapacityAvailable. simpl.
  apply Z.leb_le in Hfull. rewrite Hfull. reflexivity.
Qed.

End CreateIntent.

(** ** The stages of [confirmContribution], one equation each *)

Section Confirm.

Variable escrowWallet : string.

Lemma resolvePaymentOperations_total (tx : TransactionRecord) (w : World) :
  run (resolvePaymentOperations tx) w = (inr (operations_of w tx), w).
Proof.
  unfold operations_of, resolvePaymentOperations.
  rewrite run_try_catch.
  destruct (_links tx) as [links|]; [|reflexivity].
  destruct (Js.truthy (operations links ≫= href)); [|reflexivity].
  simpl. destruct (network w _) as [res|e]; [|reflexivity].
  simpl. destruct (ok res); [|reflexivity].
  simpl. destruct (json res) as [[|records]|e]; reflexivity.
Qed.

Lemma run_settle (h : string) (c : Contribution.SponsorContribution)
    (t : Tier.SponsorTier) (w : World) :
  Contribution.tier c = Some t ->
  Js.truthy (Some (Contribution.id c)) = true ->
  run (settle h c) w =
  if Tier.maxSponsors t
     <=? Z.of_nat (count (contributions w) (Tier.id t) CONFIRMED
                     (Some (Contribution.id c)))
  then (inl (ConflictException (Msg.tier_full t)), w)
  else (inr (confirmed_entity h c), committed h c w).
Proof.
  intros Ht Hid. unfold settle. rewrite Ht.
  rewrite run_bind, run_assertCapacityAvailable, Hid.
  destruct (_ <=? _); [reflexivity|].
  now rewrite run_bind, run_save.
Qed.

Lemma run_validate (h : string) (c : Contribution.SponsorContribution)
    (op : PaymentOp) (w : World) :
  run (validate h c op) w =
  if negb (includes SUPPORTED_ASSETS (Js.toUpperCase (assetCode op))) then
    (inl (BadRequestException (Msg.unsupported (assetCode op))),
     marked_failed c (Msg.unsupported_reason (assetCode op)) w)
  else if amount_differs (Js.parseFloat (amount op))
            (Js.parseFloat (Contribution.amount c)) then
    (inl (BadRequestException
            (Msg.wrong_amount (Js.parseFloat (Contribution.amount c))
               (Js.parseFloat (amount op)))),
     marked_failed c
       (Msg.wrong_amount_reason (Js.parseFloat (Contribution.amount c))
          (Js.parseFloat (amount op))) w)
  else run (settle h c) w.
Proof.
  unfold validate.
  destruct (negb _); [now rewrite run_bind, run_markFailed|].
  destruct (amount_differs _ _); [now rewrite run_bind, run_markFailed|].
  reflexivity.
Qed.

Lemma run_verify (h : string) (tx : TransactionRecord)
    (c : Contribution.SponsorContribution) (w : World) :
  run (verify escrowWallet h tx c) w =
  match operations_of w tx with
  | [] => (inl (BadRequestException Msg.no_ops),
           marked_failed c Msg.no_ops_reason w)
  | ops =>
      match List.find (fun op => String.eqb (to op) escrowWallet) ops with
      | None =>
          (inl (BadRequestException Msg.wrong_destination),
           marked_failed c (Msg.wrong_destination_reason escrowWallet) w)
      | Some op => run (validate h c op) w
      end
  end.
Proof.
  unfold verify. rewrite run_bind, resolvePaymentOperations_total.
  destruct (operations_of w tx) as [|op0 ops];
    [now cbn [length Nat.eqb]; rewrite run_bind, run_markFailed|].
  cbn [length Nat.eqb].
  destruct (List.find _ _); [reflexivity|].
  now rewrite run_bind, run_markFailed.
Qed.

Lemma run_confirmContribution (h : string) (w : World) :
  run (confirmContribution escrowWallet h) w =
  match ledger w h with
  | Rejected _ => (inl (BadRequestException (Msg.tx_not_found h)), w)
  | Fulfilled tx =>
      match Js.string_or_undefined (memo tx) with
      | Some (String a m' as m) =>
          if refused w m then (inl QueryFailedError, w)
          else
            match find_one w m PENDING with
            | None => (inl (NotFoundException (Msg.no_pending m)), w)
            | Some c => run (verify escrowWallet h tx c) w
            end
      | _ => (inl (BadRequestException Msg.memo_missing), w)
      end
  end.
Proof.
  unfold confirmContribution. simpl.
  destruct (ledger w h) as [tx|e]; [|reflexivity].
  destruct (Js.string_or_undefined (memo tx)) as [[|a m']|]; try reflexivity.
  simpl. destruct (refused w (String a m')); [reflexivity|].
  simpl. destruct (find_one w (String a m') PENDING); reflexivity.
Qed.

End Confirm.

Lemma invoke_createIntent (escrowWallet tierId sponsorId : string)
    (w : World) :
  invoke escrowWallet w (CreateIntent tierId sponsorId)
  = snd (run (createIntent escrowWallet tierId sponsorId) w).
Proof.
  unfold invoke, serve. rewrite run_bind.
  now destruct (run _ w) as [[e|intent] w'].
Qed.

Lemma invoke_confirmContribution (escrowWallet h : string) (w : World) :
  invoke escrowWallet w (ConfirmContribution h)
  = snd (run (confirmContribution escrowWallet h) w).
Proof.
  unfold invoke, serve. rewrite run_bind.
  now destruct (run _ w) as [[e|c] w'].
Qed.

(** ** Intent creation *)

Section CreateIntentResult.

Variable escrowWallet : string.

(** When the tier exists, has room, and the identifier the database draws
    is free, [createIntent] succeeds. *)
Lemma createIntent_succeeds (w : World) (tierId sponsorId : string)
    (r : Tier.Row) :
  tiers w !! tierId = Some r ->
  Z.of_nat (count (contributions w) tierId CONFIRMED None)
    < Tier.row_maxSponsors r ->
  contributions w !! uuid w (issued w) = None ->
  exists intent w',
    run (createIntent escrowWallet tierId sponsorId) w = (inr intent, w').
Proof.
  intros Htier Hroom Hfree. unfold createIntent.
  rewrite run_bind, run_getTierById, Htier.
  rewrite run_bind, run_assertCapacityAvailable. simpl.
  apply Z.leb_gt in Hroom. rewrite Hroom.
  simpl. unfold insert_row. rewrite Hfree. simpl. eauto.
Qed.

(** C5. What a successful [createIntent] returns and persists: the memo is
    the new contribution's identifier, the amount is the tier's price, the
    currency is XLM; the identifier was free before the call and now keys a
    row in status [PENDING], without transaction hash, with that price as
    its amount. *)
Theorem createIntent_result (w w' : World) (tierId sponsorId : string)
    (intent : Intent.ContributionIntent) :
  run (createIntent escrowWallet tierId sponsorId) w = (inr intent, w') ->
  exists r,
    tiers w !! tierId = Some r /\
    Intent.memo intent = Intent.contributionId intent /\
    Intent.amount intent = Tier.row_price r /\
    Intent.currency intent = "XLM" /\
    Intent.escrowWallet intent = escrowWallet /\
    contributions w !! Intent.contributionId intent = None /\
    contributions w' !! Intent.contributionId intent =
      Some {| Contribution.row_sponsorId := sponsorId;
              Contribution.row_tierId := tierId;
              Contribution.row_amount := Tier.row_price r;
              Contribution.row_transactionHash := None;
              Contribution.row_status := PENDING;
              Contribution.row_createdAt := now w |}.
Proof.
  unfold createIntent.
  rewrite run_bind, run_getTierById.
  destruct (tiers w !! tierId) as [r|] eqn:Htier; [|discriminate].
  rewrite run_bind, run_assertCapacityAvailable. simpl.
  destruct (_ <=? _); [discriminate|].
  simpl. unfold insert_row.
  destruct (contributions w !! uuid w (issued w)) eqn:Hfree; [discriminate|].
  simpl. intros [= <- <-]. exists r. simpl.
  repeat split; trivial. apply lookup_insert_eq.
Qed.

End CreateIntentResult.

(** ** Confirmation *)

Lemma find_one_Some (w : World) (id : string) (st : ContributionStatus)
    (c : Contribution.SponsorContribution) :
  find_one w id st = Some c <->
  exists r, contributions w !! id = Some r /\
            Contribution.row_status r = st /\
            c = Contribution.hydrate id r
                  (Tier.hydrate (Contribution.row_tierId r)
                     <$> tiers w !! Contribution.row_tierId r).
Proof.
  unfold find_one. split.
  - destruct (contributions w !! id) as [r|]; [|discriminate].
    case_bool_decide; [|discriminate]. intros [= <-]. eauto.
  - intros (r & -> & Hst & ->). rewrite bool_decide_eq_true_2; trivial.
Qed.

Lemma find_one_None (w : World) (id : string) (st : ContributionStatus) :
  find_one w id st = None <->
  ~ exists r, contributions w !! id = Some r /\ Contribution.row_status r = st.
Proof.
  unfold find_one. split.
  - destruct (contributions w !! id) as [r|].
    + case_bool_decide; [discriminate|]. intros _ (r' & [= <-] & Hst). auto.
    + intros _ (r' & [=] & _).
  - intros Hno. destruct (contributions w !! id) as [r|]; trivial.
    case_bool_decide; trivial. exfalso. eauto.
Qed.

Lemma find_one_id (w : World) (id : string) (st : ContributionStatus)
    (c : Contribution.SponsorContribution) :
  find_one w id st = Some c -> Contribution.id c = id.
Proof. intros (r & _ & _ & ->)%find_one_Some. reflexivity. Qed.

(** A text that keys a row is never refused as an identifier. *)
Lemma keyed_not_refused (w : World) (id : string) (r : Contribution.Row) :
  contributions w !! id = Some r -> refused w id = false.
Proof. unfold refused. now intros ->. Qed.

Lemma find_one_not_refused (w : World) (id : string)
    (st : ContributionStatus) (c : Contribution.SponsorContribution) :
  find_one w id st = Some c -> refused w id = false.
Proof. intros (r & Hr & _)%find_one_Some. eauto using keyed_not_refused. Qed.

Lemma truthy_unusable (v : Js.Value) :
  Js.truthy (Js.string_or_undefined v) = false <-> memo_unusable v.
Proof.
  unfold memo_unusable. destruct v as [| |z|[|a s]|]; simpl; split;
    try (intros _; left; discriminate); try (intros _; right; reflexivity);
    trivial; try discriminate.
  intros [H|H]; [exfalso; eapply H; reflexivity|discriminate].
Qed.

Section ConfirmOutcomes.

Variable escrowWallet : string.

Lemma settle_error (h : string) (c : Contribution.SponsorContribution)
    (w w' : World) (e : Exception) :
  run (settle h c) w = (inl e, w') -> VerifyError e /\ w' = w.
Proof.
  unfold settle. destruct (Contribution.tier c) as [t|].
  - rewrite run_bind, run_assertCapacityAvailable.
    destruct (_ <=? _); [simpl|now rewrite run_bind, run_save].
    intros [= <- <-]. split; [constructor|reflexivity].
  - simpl. intros [= <- <-]. split; [constructor|reflexivity].
Qed.

Lemma settle_success (h : string) (c c' : Contribution.SponsorContribution)
    (w w' : World) :
  run (settle h c) w = (inr c', w') ->
  c' = confirmed_entity h c /\ w' = committed h c w.
Proof.
  unfold settle. destruct (Contribution.tier c) as [t|]; [|discriminate].
  rewrite run_bind, run_assertCapacityAvailable.
  destruct (_ <=? _); [discriminate|].
  rewrite run_bind, run_save. simpl.
  intros [= <- <-]. split; reflexivity.
Qed.

Lemma validate_error (h : string) (c : Contribution.SponsorContribution)
    (op : PaymentOp) (w w' : World) (e : Exception) :
  run (validate h c op) w = (inl e, w') ->
  VerifyError e /\ (w' = w \/ exists reason, w' = marked_failed c reason w).
Proof.
  rewrite run_validate.
  destruct (negb _).
  { intros [= <- <-]. split; [constructor|eauto]. }
  destruct (amount_differs _ _).
  { intros [= <- <-]. split; [constructor|eauto]. }
  intros [He ->]%settle_error. auto.
Qed.

Lemma validate_success (h : string) (c c' : Contribution.SponsorContribution)
    (op : PaymentOp) (w w' : World) :
  run (validate h c op) w = (inr c', w') ->
  c' = confirmed_entity h c /\ w' = committed h c w.
Proof.
  rewrite run_validate.
  destruct (negb _); [discriminate|].
  destruct (amount_differs _ _); [discriminate|].
  apply settle_success.
Qed.

Lemma verify_error (h : string) (tx : TransactionRecord)
    (c : Contribution.SponsorContribution) (w w' : World) (e : Exception) :
  run (verify escrowWallet h tx c) w = (inl e, w') ->
  VerifyError e /\ (w' = w \/ exists reason, w' = marked_failed c reason w).
Proof.
  rewrite run_verify.
  destruct (operations_of w tx) as [|op0 ops].
  { intros [= <- <-]. split; [constructor|eauto]. }
  destruct (List.find _ _) as [op|].
  - apply validate_error.
  - intros [= <- <-]. split; [constructor|eauto].
Qed.

Lemma verify_success (h : string) (tx : TransactionRecord)
    (c c' : Contribution.SponsorContribution) (w w' : World) :
  run (verify escrowWallet h tx c) w = (inr c', w') ->
  c' = confirmed_entity h c /\ w' = committed h c w.
Proof.
  rewrite run_verify.
  destruct (operations_of w tx) as [|op0 ops]; [discriminate|].
  destruct (List.find _ _) as [op|]; [|discriminate].
  apply validate_success.
Qed.

(** Once the transaction and a usable memo are at hand, the call is the
    correlation followed by [verify]. *)
Lemma run_confirm_memo (h m : string) (tx : TransactionRecord) (w : World) :
  ledger w h = Fulfilled tx ->
  Js.string_or_undefined (memo tx) = Some m ->
  Js.truthy (Some m) = true ->
  run (confirmContribution escrowWallet h) w =
  if refused w m then (inl QueryFailedError, w)
  else
    match find_one w m PENDING with
    | None => (inl (NotFoundException (Msg.no_pending m)), w)
    | Some c => run (verify escrowWallet h tx c) w
    end.
Proof.
  intros Hl Hm Ht. rewrite run_confirmContribution, Hl, Hm.
  destruct m; [discriminate|reflexivity].
Qed.

(** Every way a confirmation can end, and the world it leaves. *)
Lemma confirm_cases (h : string) (w w' : World)
    (res : Exception + Contribution.SponsorContribution) :
  run (confirmContribution escrowWallet h) w = (res, w') ->
  (w' = w /\ exists e, res = inl e) \/
  (exists m c, find_one w m PENDING = Some c /\
     ((exists reason e, res = inl e /\ w' = marked_failed c reason w) \/
      (res = inr (confirmed_entity h c) /\ w' = committed h c w /\
       exists tx, ledger w h = Fulfilled tx /\
                  Js.string_or_undefined (memo tx) = Some m /\
                  Js.truthy (Some m) = true))).
Proof.
  rewrite run_confirmContribution.
  destruct (ledger w h) as [tx|e0] eqn:Hl; [|intros [= <- <-]; eauto].
  destruct (Js.string_or_undefined (memo tx)) as [[|a m']|] eqn:Hm;
    try (intros [= <- <-]; eauto).
  destruct (refused w (String a m')); [intros [= <- <-]; eauto|].
  destruct (find_one w (String a m') PENDING) as [c|] eqn:Hc;
    [|intros [= <- <-]; eauto].
  destruct res as [e|c'].
  - intros [_ [->|[reason ->]]]%verify_error; [eauto|].
    right. exists (String a m'), c. eauto 8.
  - intros [-> ->]%verify_success.
    right. exists (String a m'), c. split; trivial. right. eauto 8.
Qed.

End ConfirmOutcomes.

Section ConfirmStages.

Variable escrowWallet : string.

Lemma verify_error_not_memo (e : Exception) :
  VerifyError e -> e <> BadRequestException Msg.memo_missing.
Proof. destruct 1; discriminate. Qed.


(** The calls of a confirmation whose transaction the ledger gives: the
    ledger lookup alone when the memo cannot be used, and otherwise the
    ledger lookup, then the lookup of the contribution by the memo, then
    whatever follows. *)
Lemma requests_confirmContribution (w : World) (h : string)
    (tx : TransactionRecord) :
  ledger w h = Fulfilled tx ->
  requests (confirmContribution escrowWallet h) w =
  match Js.string_or_undefined (memo tx) with
  | Some (String a m' as m) =>
      request (GetTransaction h)
      :: requests
           (let* contribution := await (ContributionFindOne m PENDING) in
            match contribution with
            | None => Throw (NotFoundException (Msg.no_pending m))
            | Some contribution => verify escrowWallet h tx contribution
            end) w
  | _ => [request (GetTransaction h)]
  end.
Proof.
  intros Hl. unfold confirmContribution. cbn [requests perform]. rewrite Hl.
  now destruct (Js.string_or_undefined (memo tx)) as [[|a m']|].
Qed.

(** C7, amended. With the transaction record at hand, the memo stage throws
    its BadRequest exactly when the memo is not a string or is the empty
    string.  The call has then awaited the ledger and nothing else: no
    contribution is looked up, none is saved, no audit event is written,
    and the world is as it was.  With any other memo the call does go on to
    look the memo up among the pending contributions. *)
Theorem confirm_memo_stage (w : World) (h : string) (tx : TransactionRecord) :
  ledger w h = Fulfilled tx ->
  (memo_unusable (memo tx) <->
   fst (run (confirmContribution escrowWallet h) w)
   = inl (BadRequestException Msg.memo_missing)) /\
  (memo_unusable (memo tx) ->
   snd (run (confirmContribution escrowWallet h) w) = w) /\
  (memo_unusable (memo tx) ->
   requests (confirmContribution escrowWallet h) w
   = [request (GetTransaction h)]) /\
  (~ memo_unusable (memo tx) ->
   exists m rest,
     memo tx = Js.Str m /\
     requests (confirmContribution escrowWallet h) w
     = request (GetTransaction h)
       :: request (ContributionFindOne m PENDING) :: rest).
Proof.
  intros Hl. rewrite <- truthy_unusable.
  rewrite (requests_confirmContribution w h tx Hl).
  rewrite run_confirmContribution, Hl.
  destruct (memo tx) as [| |z|[|a m']|]; simpl;
    try (repeat split; trivial; congruence).
  repeat split; try discriminate.
  - destruct (refused w (String a m')); [discriminate|].
    destruct (find_one w (String a m') PENDING) as [c|]; [|discriminate].
    destruct (run (verify escrowWallet h tx c) w) as [[e|c'] w'] eqn:Hv;
      [|discriminate].
    apply verify_error in Hv as [He _]. simpl. intros [= ->].
    now apply verify_error_not_memo in He.
  - intros _. destruct (refused w (String a m')); eauto.
Qed.


Lemma fetch_fault_no_operations (w : World) (tx : TransactionRecord) :
  FetchFault w tx -> operations_of w tx = [].
Proof.
  unfold operations_of, resolvePaymentOperations.
  rewrite run_try_catch.
  destruct 1 as [Hl | links Hl Hh | links url e Hl Hh Hn
    | links url res Hl Hh Hn Hok | links url res e Hl Hh Hn Hj
    | links url res Hl Hh Hn Hj]; rewrite Hl; try reflexivity.
  - now rewrite Hh.
  - rewrite Hh. destruct (Js.truthy (Some url)); [|reflexivity].
    simpl. now rewrite Hn.
  - rewrite Hh. destruct (Js.truthy (Some url)); [|reflexivity].
    simpl. rewrite Hn. simpl. now rewrite Hok.
  - rewrite Hh. destruct (Js.truthy (Some url)); [|reflexivity].
    simpl. rewrite Hn. simpl. destruct (ok res); [|reflexivity].
    simpl. now rewrite Hj.
  - rewrite Hh. destruct (Js.truthy (Some url)); [|reflexivity].
    simpl. rewrite Hn. simpl. destruct (ok res); [|reflexivity].
    simpl. now rewrite Hj.
Qed.

(** C9. Whatever goes wrong in the secondary fetch, the operations resolve
    to the empty list and nothing is thrown; the call then marks the
    located contribution [FAILED], with the reason that there are no
    payment operations, and throws BadRequest. *)
Theorem confirm_fetch_fault (w : World) (h m : string)
    (tx : TransactionRecord) (c : Contribution.SponsorContribution) :
  ledger w h = Fulfilled tx ->
  Js.string_or_undefined (memo tx) = Some m ->
  Js.truthy (Some m) = true ->
  find_one w m PENDING = Some c ->
  FetchFault w tx ->
  run (resolvePaymentOperations tx) w = (inr [], w) /\
  run (confirmContribution escrowWallet h) w =
  (inl (BadRequestException Msg.no_ops),
   marked_failed c Msg.no_ops_reason w) /\
  (Contribution.row_status
     <$> contributions (marked_failed c Msg.no_ops_reason w) !! m)
  = Some FAILED /\
  last (audit (marked_failed c Msg.no_ops_reason w))
  = Some {| action := PAYMENT_FAILED;
            userId := Contribution.sponsorId c;
            resourceId := m;
            meta := MetaFailed
                      [Text "No payment operations in transaction."] |}.
Proof.
  intros Hl Hm Ht Hc Hfault.
  apply fetch_fault_no_operations in Hfault as Hops.
  apply find_one_id in Hc as Hid.
  repeat split.
  - now rewrite resolvePaymentOperations_total, Hops.
  - rewrite (run_confirm_memo escrowWallet h m tx),
    (find_one_not_refused _ _ _ _ Hc), Hc; trivial.
    now rewrite run_verify, Hops.
  - unfold marked_failed. simpl. now rewrite Hid, lookup_insert_eq.
  - unfold marked_failed. simpl. now rewrite last_snoc, Hid.
Qed.

End ConfirmStages.

Section Destination.

Variable escrowWallet : string.

Lemma find_none_matching (ops : list PaymentOp) :
  Forall (fun op => to op <> escrowWallet) ops ->
  List.find (fun op => String.eqb (to op) escrowWallet) ops = None.
Proof.
  induction 1 as [|op ops Hop _ IH]; simpl; trivial.
  apply String.eqb_neq in Hop. now rewrite Hop.
Qed.

Lemma find_first_matching (before after : list PaymentOp) (op : PaymentOp) :
  Forall (fun o => to o <> escrowWallet) before ->
  to op = escrowWallet ->
  List.find (fun o => String.eqb (to o) escrowWallet)
    (before ++ op :: after)%list = Some op.
Proof.
  intros Hb Hop. induction Hb as [|o before Ho _ IH]; simpl.
  - apply String.eqb_eq in Hop. now rewrite Hop.
  - apply String.eqb_neq in Ho. now rewrite Ho.
Qed.

(** C8. With a pending contribution located: when operations were resolved
    and none of them pays the escrow wallet, the contribution is marked
    [FAILED] with a reason that spells the expected wallet and BadRequest is
    thrown; otherwise the call is [validate] on the first operation that
    pays the escrow wallet, whatever comes after it in the list. *)
Theorem confirm_destination (w : World) (h m : string)
    (tx : TransactionRecord) (c : Contribution.SponsorContribution) :
  ledger w h = Fulfilled tx ->
  Js.string_or_undefined (memo tx) = Some m ->
  Js.truthy (Some m) = true ->
  find_one w m PENDING = Some c ->
  (operations_of w tx <> [] ->
   Forall (fun op => to op <> escrowWallet) (operations_of w tx) ->
   let w' := marked_failed c
               [Text ("Incorrect destination. Expected "
                      +:+ escrowWallet +:+ ".")] w in
   run (confirmContribution escrowWallet h) w =
   (inl (BadRequestException Msg.wrong_destination), w') /\
   Contribution.row_status <$> contributions w' !! m = Some FAILED) /\
  (forall (before : list PaymentOp) (op : PaymentOp) (after : list PaymentOp),
     operations_of w tx = (before ++ op :: after)%list ->
     Forall (fun o => to o <> escrowWallet) before ->
     to op = escrowWallet ->
     run (confirmContribution escrowWallet h) w = run (validate h c op) w).
Proof.
  intros Hl Hm Ht Hc.
  rewrite (run_confirm_memo escrowWallet h m tx),
    (find_one_not_refused _ _ _ _ Hc), Hc, run_verify; trivial.
  apply find_one_id in Hc as Hid. split.
  - intros Hne Hnone. apply find_none_matching in Hnone.
    destruct (operations_of w tx) as [|op0 ops]; [congruence|].
    rewrite Hnone. split; [reflexivity|].
    simpl. now rewrite Hid, lookup_insert_eq.
  - intros before op after Hops Hb Hop.
    pose proof (find_first_matching before after op Hb Hop) as Hfind.
    rewrite <- Hops in Hfind.
    destruct (operations_of w tx) as [|op0 ops]; [discriminate|].
    now rewrite Hfind.
Qed.

(** C2. Once the payment has passed every validation, the confirmed rows of
    the contribution's tier are counted with the contribution's own
    identifier left out: when they number [maxSponsors] or more the call
    throws Conflict and the world is as it was, so the contribution is
    still [PENDING] with every field as before; when they do not, the call
    commits. *)
Theorem confirm_capacity_recheck (w : World) (h m : string)
    (tx : TransactionRecord) (c : Contribution.SponsorContribution)
    (op : PaymentOp) (t : Tier.SponsorTier) :
  ledger w h = Fulfilled tx ->
  Js.string_or_undefined (memo tx) = Some m ->
  Js.truthy (Some m) = true ->
  find_one w m PENDING = Some c ->
  List.find (fun o => String.eqb (to o) escrowWallet) (operations_of w tx)
    = Some op ->
  includes SUPPORTED_ASSETS (Js.toUpperCase (assetCode op)) = true ->
  amount_differs (Js.parseFloat (amount op))
    (Js.parseFloat (Contribution.amount c)) = false ->
  Contribution.tier c = Some t ->
  run (confirmContribution escrowWallet h) w =
  (if Tier.maxSponsors t
      <=? Z.of_nat (count (contributions w) (Tier.id t) CONFIRMED (Some m))
   then (inl (ConflictException (Msg.tier_full t)), w)
   else (inr (confirmed_entity h c), committed h c w)) /\
  Contribution.row_status <$> contributions w !! m = Some PENDING.
Proof.
  intros Hl Hm Ht Hc Hop Hasset Hamount Htier.
  rewrite (run_confirm_memo escrowWallet h m tx),
    (find_one_not_refused _ _ _ _ Hc), Hc, run_verify; trivial.
  apply find_one_id in Hc as Hid. split.
  - destruct (operations_of w tx) as [|op0 ops]; [discriminate|].
    rewrite Hop, run_validate, Hasset, Hamount. simpl.
    rewrite (run_settle h c t), Hid; trivial. now rewrite Hid.
  - apply find_one_Some in Hc as (r & -> & Hst & _). simpl. now rewrite Hst.
Qed.

End Destination.

(** ** What the calls do to the rows *)

Section Frame.

Variable escrowWallet : string.

(** The worlds [createIntent] can leave. *)
Lemma createIntent_cases (tierId sponsorId : string) (w : World) :
  let w' := snd (run (createIntent escrowWallet tierId sponsorId) w) in
  contributions w' = contributions w \/
  exists key r,
    contributions w !! key = None /\
    Contribution.row_transactionHash r = None /\
    Contribution.row_status r = PENDING /\
    contributions w' = <[key := r]> (contributions w).
Proof.
  unfold createIntent.
  rewrite run_bind, run_getTierById.
  destruct (tiers w !! tierId) as [tr|]; [|left; reflexivity].
  rewrite run_bind, run_assertCapacityAvailable. simpl.
  destruct (_ <=? _); [left; reflexivity|].
  simpl. unfold insert_row.
  destruct (contributions w !! uuid w (issued w)) eqn:Hfree;
    [left; reflexivity|].
  right. simpl. eexists _, _. repeat split; [exact Hfree|reflexivity..].
Qed.

Lemma hydrate_failed_row (key : string) (r : Contribution.Row)
    (t : option Tier.SponsorTier) :
  Contribution.to_row
    (Contribution.set_status FAILED (Contribution.hydrate key r t))
  = Contribution.row_set_status FAILED r.
Proof. reflexivity. Qed.





End Frame.

(** ** Capacity, one call at a time *)

Lemma count_insert_unselected (m : gmap string Contribution.Row)
    (key : string) (r : Contribution.Row) (tierId : string)
    (st : ContributionStatus) (ex : option string) :
  selected tierId st ex (key, r) = false ->
  (forall r0, m !! key = Some r0 -> selected tierId st ex (key, r0) = false) ->
  count (<[key := r]> m) tierId st ex = count m tierId st ex.
Proof.
  intros Hr Hr0. unfold count.
  rewrite map_filter_insert_not'; trivial.
  - now rewrite Hr.
  - intros r0 H0. now rewrite (Hr0 r0 H0).
Qed.

Lemma count_insert_selected (m : gmap string Contribution.Row)
    (key : string) (r : Contribution.Row) (tierId : string)
    (st : ContributionStatus) (ex : option string) :
  selected tierId st ex (key, r) = true ->
  (forall r0, m !! key = Some r0 -> selected tierId st ex (key, r0) = false) ->
  count (<[key := r]> m) tierId st ex = S (count m tierId st ex).
Proof.
  intros Hr Hr0. unfold count.
  rewrite map_filter_insert_True; trivial.
  apply map_size_insert_None, map_lookup_filter_None_2.
  right. intros r0 H0. now rewrite (Hr0 r0 H0).
Qed.

Lemma count_exclude_unselected (m : gmap string Contribution.Row)
    (key : string) (tierId : string) (st : ContributionStatus) :
  (forall r0, m !! key = Some r0 -> Contribution.row_status r0 <> st) ->
  count m tierId st (Some key) = count m tierId st None.
Proof.
  intros Hkey. unfold count. f_equal.
  apply map_filter_ext. intros i x Hx. unfold selected. simpl.
  destruct (String.eqb_spec i key) as [->|Hne]; simpl.
  - rewrite bool_decide_eq_false_2 by now apply Hkey.
    now rewrite !andb_false_r.
  - now rewrite !andb_true_r.
Qed.

Lemma selected_status (tierId : string) (st : ContributionStatus)
    (ex : option string) (key : string) (r : Contribution.Row) :
  Contribution.row_status r <> st -> selected tierId st ex (key, r) = false.
Proof.
  intros Hst. unfold selected. simpl.
  rewrite bool_decide_eq_false_2 by trivial.
  now rewrite andb_false_r.
Qed.

Lemma perform_tiers {R : Type} (op : Eff R) (w : World) :
  tiers (snd (perform op w)) = tiers w.
Proof.
  destruct op; simpl; trivial.
  - unfold insert_row. now destruct (contributions w !! _).
  - now destruct (refused w id).
  - now destruct (contributions w !! id).
Qed.

Lemma run_tiers {A : Type} (p : Prog A) (w : World) :
  tiers (snd (run p w)) = tiers w.
Proof.
  revert w. induction p as [a | e | R op k IH]; intros w; simpl; trivial.
  pose proof (perform_tiers op w) as Ht.
  destruct (perform op w) as [s w']. simpl in Ht. now rewrite IH.
Qed.

Section Capacity.

Variable escrowWallet : string.

Lemma settle_room (h : string) (c c' : Contribution.SponsorContribution)
    (w w' : World) :
  run (settle h c) w = (inr c', w') ->
  exists t,
    Contribution.tier c = Some t /\
    Z.of_nat (count (contributions w) (Tier.id t) CONFIRMED
                (if Js.truthy (Some (Contribution.id c))
                 then Some (Contribution.id c) else None))
      < Tier.maxSponsors t.
Proof.
  unfold settle. destruct (Contribution.tier c) as [t|]; [|discriminate].
  rewrite run_bind, run_assertCapacityAvailable.
  destruct (_ <=? _) eqn:Hleb; simpl; [discriminate|].
  intros _. exists t. split; trivial. now apply Z.leb_gt.
Qed.

Lemma verify_room (h : string) (tx : TransactionRecord)
    (c c' : Contribution.SponsorContribution) (w w' : World) :
  run (verify escrowWallet h tx c) w = (inr c', w') ->
  exists t,
    Contribution.tier c = Some t /\
    Z.of_nat (count (contributions w) (Tier.id t) CONFIRMED
                (if Js.truthy (Some (Contribution.id c))
                 then Some (Contribution.id c) else None))
      < Tier.maxSponsors t.
Proof.
  rewrite run_verify.
  destruct (operations_of w tx) as [|op0 ops]; [discriminate|].
  destruct (List.find _ _) as [op|]; [|discriminate].
  rewrite run_validate.
  destruct (negb _); [discriminate|].
  destruct (amount_differs _ _); [discriminate|].
  apply settle_room.
Qed.

(** A confirmation that commits found room in the tier of its row. *)
Lemma confirm_commit (h : string) (c' : Contribution.SponsorContribution)
    (w w' : World) :
  run (confirmContribution escrowWallet h) w = (inr c', w') ->
  exists m r tr,
    contributions w !! m = Some r /\
    Contribution.row_status r = PENDING /\
    tiers w !! Contribution.row_tierId r = Some tr /\
    Z.of_nat (count (contributions w) (Contribution.row_tierId r)
                CONFIRMED None)
      < Tier.row_maxSponsors tr /\
    contributions w' =
      <[m := Contribution.row_set_status CONFIRMED
               {| Contribution.row_sponsorId := Contribution.row_sponsorId r;
                  Contribution.row_tierId := Contribution.row_tierId r;
                  Contribution.row_amount := Contribution.row_amount r;
                  Contribution.row_transactionHash := Some h;
                  Contribution.row_status := Contribution.row_status r;
                  Contribution.row_createdAt :=
                    Contribution.row_createdAt r |}]>
        (contributions w).
Proof.
  intros Hrun. pose proof Hrun as Hcases.
  apply confirm_cases in Hcases
    as [[_ [e [=]]]
       | (m & c & Hc & [(reason & e & [=] & _)
                       | (_ & -> & tx & Hl & Hm & Ht)])].
  rewrite (run_confirm_memo escrowWallet h m tx),
    (find_one_not_refused _ _ _ _ Hc), Hc in Hrun; trivial.
  apply verify_room in Hrun as (t & Htier & Hroom).
  apply find_one_Some in Hc as (r & Hr & Hst & ->).
  simpl in Htier. cbn [Contribution.id Contribution.hydrate] in Hroom.
  rewrite Ht in Hroom.
  destruct (tiers w !! Contribution.row_tierId r) as [tr|] eqn:Htr;
    [|discriminate].
  injection Htier as <-. simpl in Hroom.
  rewrite count_exclude_unselected in Hroom
    by (intros r0; rewrite Hr; intros [= <-]; congruence).
  exists m, r, tr. repeat split; trivial.
Qed.

Lemma invoke_within_capacity (w : World) (call : Call) :
  within_capacity w -> within_capacity (invoke escrowWallet w call).
Proof.
  intros Hcap tierId tr. destruct call as [tid sponsorId | h];
    rewrite ?invoke_createIntent, ?invoke_confirmContribution.
  - rewrite run_tiers. intros Htr. specialize (Hcap tierId tr Htr).
    destruct (createIntent_cases escrowWallet tid sponsorId w)
      as [-> | (key & r & Hfree & _ & Hst & ->)]; trivial.
    rewrite count_insert_unselected; trivial.
    + apply selected_status. congruence.
    + intros r0. rewrite Hfree. discriminate.
  - rewrite run_tiers. intros Htr. specialize (Hcap tierId tr Htr) as Hle.
    destruct (run (confirmContribution escrowWallet h) w) as [res w'] eqn:Hrun.
    destruct res as [e|c'].
    + apply confirm_cases in Hrun
        as [[-> _] | (m & c & Hc & [(reason & e' & _ & ->) | ([=] & _)])];
        trivial.
      apply find_one_Some in Hc as (r & Hr & Hst & ->).
      unfold marked_failed. simpl.
      rewrite count_insert_unselected; trivial.
      * apply selected_status. discriminate.
      * intros r0. rewrite Hr. intros [= <-].
        apply selected_status. congruence.
    + apply confirm_commit in Hrun
        as (m & r & tr' & Hr & Hst & Htr' & Hroom & Heq).
      simpl. rewrite Heq.
      assert (forall r0, contributions w !! m = Some r0 ->
                selected tierId CONFIRMED None (m, r0) = false) as Hold.
      { intros r0. rewrite Hr. intros [= <-].
        apply selected_status. congruence. }
      destruct (String.eqb_spec (Contribution.row_tierId r) tierId)
        as [Heqt|Hne].
      * rewrite count_insert_selected; trivial.
        -- subst tierId. rewrite Htr' in Htr. injection Htr as <-. lia.
        -- unfold selected. simpl. apply String.eqb_eq in Heqt.
           now rewrite Heqt.
      * rewrite count_insert_unselected; trivial.
        unfold selected. simpl. apply String.eqb_neq in Hne.
        now rewrite Hne.
Qed.

(** X19. Run one after the other, the calls never fill a tier beyond its
    places: the re-count does its work as long as nothing comes between it
    and the write. *)
Lemma sequential_capacity (calls : list Call) (w : World) :
  within_capacity w -> within_capacity (history escrowWallet calls w).
Proof.
  revert w. unfold history.
  induction calls as [|call calls IH]; intros w Hcap; simpl; trivial.
  apply IH, invoke_within_capacity, Hcap.
Qed.

End Capacity.

(** ** The amount check on doubles *)

Section FrozenAmount.

Variable escrowWallet : string.

Lemma operations_of_network (w1 w2 : World) (tx : TransactionRecord) :
  network w1 = network w2 -> operations_of w1 tx = operations_of w2 tx.
Proof.
  intros Hn. unfold operations_of, resolvePaymentOperations.
  rewrite !run_try_catch.
  destruct (_links tx) as [links|]; [|reflexivity].
  destruct (Js.truthy (operations links ≫= href)); [|reflexivity].
  simpl. rewrite Hn.
  destruct (network w2 _) as [res|e]; [|reflexivity].
  simpl. destruct (ok res); [|reflexivity].
  simpl. destruct (json res) as [[|records]|e]; reflexivity.
Qed.

Lemma find_one_reprice (f : decimal -> decimal) (w : World) (id : string)
    (st : ContributionStatus) :
  find_one (reprice f w) id st = None /\ find_one w id st = None \/
  exists r t t',
    find_one (reprice f w) id st = Some (Contribution.hydrate id r t') /\
    find_one w id st = Some (Contribution.hydrate id r t) /\
    match t, t' with
    | Some t, Some t' =>
        Tier.id t' = Tier.id t /\ Tier.name t' = Tier.name t /\
        Tier.maxSponsors t' = Tier.maxSponsors t
    | None, None => True
    | _, _ => False
    end.
Proof.
  unfold find_one, reprice. simpl.
  destruct (contributions w !! id) as [r|]; [|auto].
  case_bool_decide; [|auto].
  right. eexists r, _, _. split; [reflexivity|]. split; [reflexivity|].
  rewrite lookup_fmap.
  now destruct (tiers w !! Contribution.row_tierId r).
Qed.

(** X21. The amount a payment is held against is the one the contribution
    carries: whatever the prices of the tiers have become, a confirmation
    ends the same way and leaves the same rows and audit events. *)
Lemma confirm_ignores_live_price (f : decimal -> decimal) (w : World)
    (h : string) :
  let before := run (confirmContribution escrowWallet h) w in
  let after := run (confirmContribution escrowWallet h) (reprice f w) in
  columns (fst after) = columns (fst before) /\
  contributions (snd after) = contributions (snd before) /\
  audit (snd after) = audit (snd before).
Proof.
  cbv zeta. rewrite !run_confirmContribution.
  change (ledger (reprice f w)) with (ledger w).
  destruct (ledger w h) as [tx|e]; [|now repeat split].
  destruct (Js.string_or_undefined (memo tx)) as [[|a m']|];
    try (now repeat split).
  change (refused (reprice f w) (String a m'))
    with (refused w (String a m')).
  destruct (refused w (String a m')); [now repeat split|].
  destruct (find_one_reprice f w (String a m') PENDING)
    as [[-> ->] | (r & t & t' & -> & -> & Ht)]; [now repeat split|].
  rewrite !run_verify.
  rewrite (operations_of_network (reprice f w) w tx) by reflexivity.
  destruct (operations_of w tx) as [|op0 ops]; [now repeat split|].
  destruct (List.find _ _) as [op|]; [|now repeat split].
  rewrite !run_validate. cbn [Contribution.amount Contribution.hydrate].
  destruct (negb _); [now repeat split|].
  destruct (amount_differs _ _); [now repeat split|].
  unfold settle. cbn [Contribution.tier Contribution.hydrate].
  destruct t as [t|], t' as [t'|]; try contradiction; [|now repeat split].
  destruct Ht as (Hid & Hname & Hmax).
  rewrite !run_bind, !run_assertCapacityAvailable.
  change (contributions (reprice f w)) with (contributions w).
  rewrite Hid, Hmax. unfold Msg.tier_full. rewrite Hname, Hmax.
  destruct (_ <=? _); [now repeat split|].
  rewrite !run_bind, !run_save. now repeat split.
Qed.

End FrozenAmount.

(** With a frozen amount of 100, a payment of 100.00000001 passes the
    amount check and a payment of 100.000001 does not. *)
Lemma amount_check_at_100 :
  amount_differs (Js.parseFloat "100.00000001") (Js.parseFloat "100.0000000")
    = false /\
  amount_differs (Js.parseFloat "100.000001") (Js.parseFloat "100.0000000")
    = true.
Proof. split; vm_compute; reflexivity. Qed.

(** What is compared is never a number: the check lets it through. *)
Lemma amount_check_nan (x : Js.number) :
  amount_differs S754_nan x = false.
Proof. reflexivity. Qed.

(** C4, at the input where the code departs from it.  The frozen amount is
    20000000000.0000000 and the operation pays 20000000000.0000010: the two
    decimals are 1e-6 apart, both are read as the same double, the amount
    check passes and the contribution is confirmed. *)
Theorem amount_check_large_amounts :
  Js.scan "20000000000.0000000" = Js.Decimal false 200000000000000000 (-7) /\
  Js.scan "20000000000.0000010" = Js.Decimal false 200000000000000010 (-7) /\
  Js.parseFloat "20000000000.0000010" = Js.parseFloat "20000000000.0000000" /\
  amount_differs (Js.parseFloat "20000000000.0000010")
    (Js.parseFloat "20000000000.0000000") = false /\
  (Contribution.row_amount <$> contributions Scenario.large !! "c1")
    = Some "20000000000.0000000" /\
  operations_of Scenario.large (Scenario.tx (Js.Str "c1") "ops/big")
    = [Scenario.payment Scenario.wallet "20000000000.0000010"] /\
  exists c w',
    run (confirmContribution Scenario.wallet "h-big") Scenario.large
    = (inr c, w') /\
    Contribution.status c = CONFIRMED /\
    Contribution.row_status <$> contributions w' !! "c1" = Some CONFIRMED.
Proof.
  do 6 (split; [vm_compute; reflexivity|]).
  eexists _, _. split; [vm_compute; reflexivity|].
  split; vm_compute; reflexivity.
Qed.

(** ** Invocations in flight together *)

Lemma run_step {A : Type} (p : Prog A) (w : World) :
  run p w = run (fst (step p w)) (snd (step p w)).
Proof.
  destruct p as [a | e | R op k]; simpl; trivial.
  now destruct (perform op w).
Qed.

(** Taken one after the other, two confirmations for the one place left:
    the second is refused and its contribution stays pending. *)
Lemma confirmations_one_by_one :
  exists c1,
    run_pool Scenario.one_by_one
      [confirmContribution Scenario.wallet "h1";
       confirmContribution Scenario.wallet "h2"] Scenario.two_pending
    = ([Ret c1;
        Throw (ConflictException
                 (Msg.tier_full (Tier.hydrate "tier-1" Scenario.gold)))],
       committed "h1"
         (Contribution.hydrate "c1"
            (Scenario.row "sponsor-a" "100.0000000" None PENDING)
            (Some (Tier.hydrate "tier-1" Scenario.gold)))
         Scenario.two_pending).
Proof. eexists. vm_compute. reflexivity. Qed.

(** C1, at the input where the code departs from it.  A tier with room for
    one sponsor, no confirmed contribution and two pending ones; two
    confirmations, one for each, whose awaited calls are taken in turn:
    both count the confirmed rows before either writes, both commit, and
    the tier ends with two confirmed contributions. *)
Theorem confirmations_in_turn_oversell :
  Tier.row_maxSponsors <$> tiers Scenario.two_pending !! "tier-1" = Some 1 /\
  count (contributions Scenario.two_pending) "tier-1" CONFIRMED None = 0%nat /\
  exists c1 c2 w',
    run_pool Scenario.in_turn
      [confirmContribution Scenario.wallet "h1";
       confirmContribution Scenario.wallet "h2"] Scenario.two_pending
    = ([Ret c1; Ret c2], w') /\
    Contribution.status c1 = CONFIRMED /\
    Contribution.status c2 = CONFIRMED /\
    Contribution.tierId c1 = "tier-1" /\
    Contribution.tierId c2 = "tier-1" /\
    tiers w' = tiers Scenario.two_pending /\
    count (contributions w') "tier-1" CONFIRMED None = 2%nat.
Proof.
  split; [reflexivity|]. split; [vm_compute; reflexivity|].
  eexists _, _, _. split; [vm_compute; reflexivity|].
  repeat split; vm_compute; reflexivity.
Qed.

(** ** The properties on the running example *)

(** The full tier of the running example refuses a new intent. *)
Lemma createIntent_full_conflict_witness :
  run (createIntent Scenario.wallet "tier-1" "sponsor-z") Scenario.raced
  = (inl (ConflictException
            (Msg.tier_full (Tier.hydrate "tier-1" Scenario.gold))),
     Scenario.raced).
Proof.
  apply createIntent_full_conflict; [reflexivity|].
  vm_compute. discriminate.
Defined.

(** The first intent of the running example. *)
Lemma createIntent_result_witness :
  exists r,
    tiers Scenario.fresh !! "tier-1" = Some r /\
    Intent.memo Scenario.first_intent
      = Intent.contributionId Scenario.first_intent /\
    Intent.amount Scenario.first_intent = Tier.row_price r /\
    Intent.currency Scenario.first_intent = "XLM" /\
    Intent.escrowWallet Scenario.first_intent = Scenario.wallet /\
    contributions Scenario.fresh
      !! Intent.contributionId Scenario.first_intent = None /\
    contributions
      (snd (run (createIntent Scenario.wallet "tier-1" "sponsor-a")
              Scenario.fresh))
      !! Intent.contributionId Scenario.first_intent
    = Some (Scenario.row "sponsor-a" (Tier.row_price r) None PENDING).
Proof.
  apply (createIntent_result Scenario.wallet Scenario.fresh).
  vm_compute. reflexivity.
Defined.

(** C6, at the input where the code departs from it.  The identifier
    column is of a native uuid type; a transaction carries the memo
    [order-42], which is no uuid and so the identifier of no contribution.
    The lookup is rejected, the rejection is not caught, and the call fails
    with it: not with NotFound, whatever its message. *)
Theorem correlation_memo_not_a_uuid :
  ledger Cases.native_uuid "h-stray"
  = Fulfilled (Scenario.tx (Js.Str "order-42") "ops/exact") /\
  Cases.is_uuid "order-42" = false /\
  contributions Cases.native_uuid !! "order-42" = None /\
  requests (confirmContribution Scenario.wallet "h-stray") Cases.native_uuid
  = [request (GetTransaction "h-stray");
     request (ContributionFindOne "order-42" PENDING)] /\
  run (confirmContribution Scenario.wallet "h-stray") Cases.native_uuid
  = (inl QueryFailedError, Cases.native_uuid) /\
  forall msg,
    fst (run (confirmContribution Scenario.wallet "h-stray")
           Cases.native_uuid)
    <> inl (NotFoundException msg).
Proof.
  do 5 (split; [vm_compute; reflexivity|]).
  intros msg. vm_compute. discriminate.
Qed.


(** C7 as worded fails on the empty memo: it is present and it is a
    string, and the memo stage still throws its BadRequest. *)
Lemma memo_empty_string_counterexample :
  ledger Scenario.one_pending "h-empty"
  = Fulfilled (Scenario.tx (Js.Str "") "ops/exact") /\
  memo (Scenario.tx (Js.Str "") "ops/exact") = Js.Str "" /\
  run (confirmContribution Scenario.wallet "h-empty") Scenario.one_pending
  = (inl (BadRequestException Msg.memo_missing), Scenario.one_pending).
Proof. repeat split. Qed.

(** The empty memo of the running example: BadRequest, and the ledger is
    the one collaborator that was called. *)
Lemma confirm_memo_stage_witness :
  fst (run (confirmContribution Scenario.wallet "h-empty")
         Scenario.one_pending)
  = inl (BadRequestException Msg.memo_missing) /\
  requests (confirmContribution Scenario.wallet "h-empty")
    Scenario.one_pending
  = [request (GetTransaction "h-empty")].
Proof.
  pose proof (confirm_memo_stage Scenario.wallet Scenario.one_pending
                "h-empty" (Scenario.tx (Js.Str "") "ops/exact") eq_refl)
    as (Hthrows & _ & Hcalls & _).
  split; [apply Hthrows|apply Hcalls]; right; reflexivity.
Defined.

(** A rejected fetch in the running example. *)
Lemma confirm_fetch_fault_witness :
  run (confirmContribution Scenario.wallet "h-down") Scenario.one_pending
  = (inl (BadRequestException Msg.no_ops),
     marked_failed Scenario.c1 Msg.no_ops_reason Scenario.one_pending).
Proof.
  refine (proj1 (proj2
    (confirm_fetch_fault Scenario.wallet Scenario.one_pending "h-down" "c1"
       (Scenario.tx (Js.Str "c1") "ops/down") Scenario.c1 _ _ _ _ _)));
    try (vm_compute; reflexivity).
  eapply (fault_rejected _ _ _ "ops/down" NetworkError); reflexivity.
Defined.

(** Three operations, the second and the third paying the escrow wallet: the
    second is the one validated. *)
Lemma confirm_destination_witness :
  run (confirmContribution Scenario.wallet "h-two") Scenario.one_pending
  = run (validate "h-two" Scenario.c1
           (Scenario.payment Scenario.wallet "100.0000000"))
      Scenario.one_pending.
Proof.
  refine (proj2
    (confirm_destination Scenario.wallet Scenario.one_pending "h-two" "c1"
       (Scenario.tx (Js.Str "c1") "ops/two") Scenario.c1 _ _ _ _)
    [Scenario.payment "GOTHER" "1.0000000"]
    (Scenario.payment Scenario.wallet "100.0000000")
    [Scenario.payment Scenario.wallet "5.0000000"] _ _ _);
    try (vm_compute; reflexivity).
  constructor; [vm_compute; discriminate | constructor].
Defined.

(** The race of the running example: the other contribution confirmed first. *)
Lemma confirm_capacity_recheck_witness :
  run (confirmContribution Scenario.wallet "h1") Scenario.raced
  = (inl (ConflictException
            (Msg.tier_full (Tier.hydrate "tier-1" Scenario.gold))),
     Scenario.raced) /\
  Contribution.row_status <$> contributions Scenario.raced !! "c1"
  = Some PENDING.
Proof.
  refine (confirm_capacity_recheck Scenario.wallet Scenario.raced "h1" "c1"
            (Scenario.tx (Js.Str "c1") "ops/exact") Scenario.c1
            (Scenario.payment Scenario.wallet "100.0000000")
            (Tier.hydrate "tier-1" Scenario.gold) _ _ _ _ _ _ _ _);
    vm_compute; reflexivity.
Defined.



(** The same two confirmations, the one for [h-off] held up before the
    read of its [save] instead of after it.  It then reads the row as the
    other call confirmed it, and its update sets the two columns in which
    its entity differs from that row: the status and the hash.  The
    contribution the first call answered as confirmed ends [FAILED]
    without a hash. *)
Lemma confirmed_then_marked_failed :
  let w := invoke Scenario.wallet Scenario.fresh
             (CreateIntent "tier-1" "sponsor-a") in
  let after :=
    run_pool Scenario.outrun
      [confirmContribution Scenario.wallet "h1";
       confirmContribution Scenario.wallet "h-off"] w in
  fst after
  = [Ret (confirmed_entity "h1" Scenario.c1);
     Throw (BadRequestException
              (Msg.wrong_amount (Js.parseFloat "100.0000000")
                 (Js.parseFloat "100.000001")))] /\
  contributions (snd after) !! "c1"
  = Some (Scenario.row "sponsor-a" "100.0000000" None FAILED).
Proof. split; vm_compute; reflexivity. Qed.

(** * Further properties of the service *)

(** ** Intent creation, every outcome *)

Section IntentOutcomes.

Variable escrowWallet : string.

Lemma run_createIntent (tierId sponsorId : string) (w : World) :
  run (createIntent escrowWallet tierId sponsorId) w =
  match tiers w !! tierId with
  | None => (inl (NotFoundException (Msg.tier_not_found tierId)), w)
  | Some r =>
      if Tier.row_maxSponsors r
         <=? Z.of_nat (count (contributions w) tierId CONFIRMED None)
      then (inl (ConflictException (Msg.tier_full (Tier.hydrate tierId r))),
            w)
      else
        match contributions w !! uuid w (issued w) with
        | Some _ => (inl QueryFailedError, with_issued (S (issued w)) w)
        | None =>
            (inr {| Intent.contributionId := uuid w (issued w);
                    Intent.escrowWallet := escrowWallet;
                    Intent.amount := Tier.row_price r;
                    Intent.currency := "XLM";
                    Intent.memo := uuid w (issued w) |},
             intended sponsorId tierId (Tier.row_price r) w)
        end
  end.
Proof.
  unfold createIntent.
  rewrite run_bind, run_getTierById.
  destruct (tiers w !! tierId) as [r|]; [|reflexivity].
  rewrite run_bind, run_assertCapacityAvailable. simpl.
  destruct (_ <=? _); [reflexivity|].
  simpl. unfold insert_row.
  destruct (contributions w !! uuid w (issued w)); reflexivity.
Qed.

(** X1. [createIntent] fails in three ways only: NotFound when the tier
    does not exist, Conflict when the tier is full, and the database's
    refusal when the identifier it drew is taken.  Whichever it is, no row
    and no audit event was written. *)
Theorem createIntent_failure_writes_nothing (tierId sponsorId : string)
    (w w' : World) (e : Exception) :
  run (createIntent escrowWallet tierId sponsorId) w = (inl e, w') ->
  contributions w' = contributions w /\ audit w' = audit w /\
  ((e = NotFoundException (Msg.tier_not_found tierId) /\
    tiers w !! tierId = None) \/
   (exists r, tiers w !! tierId = Some r /\
      e = ConflictException (Msg.tier_full (Tier.hydrate tierId r)) /\
      Tier.row_maxSponsors r
        <= Z.of_nat (count (contributions w) tierId CONFIRMED None)) \/
   (e = QueryFailedError /\
    is_Some (contributions w !! uuid w (issued w)))).
Proof.
  rewrite run_createIntent.
  destruct (tiers w !! tierId) as [r|] eqn:Htier.
  - destruct (_ <=? _) eqn:Hfull.
    + intros [= <- <-]. repeat split; trivial.
      right. left. exists r. repeat split; trivial. now apply Z.leb_le.
    + destruct (contributions w !! uuid w (issued w)) eqn:Hkey;
        [|discriminate].
      intros [= <- <-]. repeat split; trivial. right. right. eauto.
  - intros [= <- <-]. repeat split; trivial. left. now split.
Qed.

(** An intent does not take a place: [createIntent] leaves the number of
    confirmed contributions of every tier as it was. *)
Lemma createIntent_count (tierId sponsorId t : string) (st : ContributionStatus)
    (ex : option string) (w : World) :
  st <> PENDING ->
  count (contributions
           (snd (run (createIntent escrowWallet tierId sponsorId) w)))
    t st ex
  = count (contributions w) t st ex.
Proof.
  intros Hst. rewrite run_createIntent.
  destruct (tiers w !! tierId) as [r|]; [|reflexivity].
  destruct (_ <=? _); [reflexivity|].
  destruct (contributions w !! uuid w (issued w)) eqn:Hkey; [reflexivity|].
  unfold intended. simpl.
  apply count_insert_unselected.
  - apply selected_status. simpl. congruence.
  - intros r0. rewrite Hkey. discriminate.
Qed.

(** X2. Pending intents hold no place.  After a [createIntent] that
    succeeded, a further [createIntent] on the same tier, for any sponsor,
    is never refused for want of room: it succeeds as soon as the
    identifier the database draws next is free. *)
Theorem createIntent_reserves_nothing (tierId sponsorId sponsorId' : string)
    (w w1 : World) (intent : Intent.ContributionIntent) :
  run (createIntent escrowWallet tierId sponsorId) w = (inr intent, w1) ->
  contributions w1 !! uuid w1 (issued w1) = None ->
  exists intent' w2,
    run (createIntent escrowWallet tierId sponsorId') w1 = (inr intent', w2) /\
    Intent.contributionId intent' <> Intent.contributionId intent /\
    Contribution.row_status <$> contributions w2 !! Intent.contributionId intent
      = Some PENDING /\
    Contribution.row_status <$> contributions w2 !! Intent.contributionId intent'
      = Some PENDING.
Proof.
  intros Hrun Hfree.
  pose proof (createIntent_count tierId sponsorId tierId CONFIRMED None w) as Hc.
  rewrite Hrun in Hc. simpl in Hc. specialize (Hc ltac:(discriminate)).
  pose proof (run_tiers (createIntent escrowWallet tierId sponsorId) w) as Ht.
  rewrite Hrun in Ht. simpl in Ht.
  rewrite run_createIntent in Hrun.
  rewrite (run_createIntent tierId sponsorId' w1), Ht, Hc.
  destruct (tiers w !! tierId) as [r|]; [|discriminate].
  destruct (_ <=? _); [discriminate|].
  destruct (contributions w !! uuid w (issued w)) eqn:Hkey; [discriminate|].
  injection Hrun as <- <-. rewrite Hfree.
  eexists _, _. split; [reflexivity|]. simpl.
  assert (uuid w (S (issued w)) <> uuid w (issued w)) as Hne.
  { intros Heq. unfold intended in Hfree. simpl in Hfree.
    rewrite Heq, lookup_insert_eq in Hfree. discriminate. }
  split; [exact Hne|]. unfold intended. simpl.
  rewrite lookup_insert_ne, !lookup_insert_eq by exact Hne.
  split; reflexivity.
Qed.

End IntentOutcomes.

(** ** The amount check as a relation on doubles *)

Lemma abs_binary_round_aux (s s' : bool) (m e : Z) (l : location) :
  SFabs (binary_round_aux Js.prec Js.emax s m e l)
  = SFabs (binary_round_aux Js.prec Js.emax s' m e l).
Proof.
  unfold binary_round_aux.
  destruct (shr_fexp Js.prec Js.emax m e l) as [mrs e1].
  destruct (shr_fexp Js.prec Js.emax _ e1 loc_Exact) as [mrs2 e2].
  destruct (shr_m mrs2); trivial.
  destruct (Z.leb _ _); reflexivity.
Qed.

Lemma abs_binary_normalize_opp (z e : Z) :
  SFabs (binary_normalize Js.prec Js.emax (- z) e false)
  = SFabs (binary_normalize Js.prec Js.emax z e false).
Proof.
  destruct z as [|p|p]; trivial; simpl; unfold binary_round;
    destruct (shl_align _ _ _) as [mz ez]; apply abs_binary_round_aux.
Qed.

Lemma abs_sub_sym (x y : Js.number) :
  Js.abs (Js.sub x y) = Js.abs (Js.sub y x).
Proof.
  unfold Js.abs, Js.sub.
  destruct x as [sx|sx| |sx mx ex], y as [sy|sy| |sy my ey];
    try reflexivity;
    try (destruct sx, sy; reflexivity);
    try (destruct sx; reflexivity); try (destruct sy; reflexivity).
  cbv beta iota zeta delta [SFsub]. rewrite (Z.min_comm ey ex).
  rewrite <- abs_binary_normalize_opp. f_equal. f_equal. lia.
Qed.

Lemma sub_diag_not_above (x : Js.number) :
  Js.gt (Js.abs (Js.sub x x)) epsilon = false.
Proof.
  unfold Js.abs, Js.sub.
  destruct x as [s|s| |s m e]; try reflexivity;
    try (destruct s; reflexivity).
  cbv beta iota zeta delta [SFsub]. rewrite Z.sub_diag. reflexivity.
Qed.

(** X3. The amount check is a symmetric, reflexive relation: paying more
    is held against the payer exactly as paying less is, and an amount
    written as the frozen amount is written always passes, whatever the
    text (also one that is no number at all). *)
Theorem amount_check_symmetric_reflexive :
  (forall x y, amount_differs x y = amount_differs y x) /\
  (forall x, amount_differs x x = false) /\
  (forall s, amount_differs (Js.parseFloat s) (Js.parseFloat s) = false).
Proof.
  repeat split.
  - intros x y. unfold amount_differs. now rewrite abs_sub_sym.
  - intros x. apply sub_diag_not_above.
  - intros s. apply sub_diag_not_above.
Qed.

(** ** The stages of the confirmation the capacity, memo and destination
    properties leave out *)

Lemma supported_iff (code : string) :
  supported code = true <->
  Js.toUpperCase code = "XLM" \/ Js.toUpperCase code = "USDC".
Proof.
  unfold supported, includes, SUPPORTED_ASSETS. simpl.
  rewrite orb_false_r, orb_true_iff, !String.eqb_eq. tauto.
Qed.

Lemma verify_error_not_lookup (e : Exception) (h : string) :
  VerifyError e -> e <> BadRequestException (Msg.tx_not_found h).
Proof. destruct 1; discriminate. Qed.

Section Stages.

Variable escrowWallet : string.

(** X4. The transaction lookup.  Whatever the ledger rejects the request
    with, the caller is told that the transaction was not found on the
    network, by a BadRequest that names the hash, and nothing is written;
    no later stage answers with that message. *)
Theorem confirm_ledger_rejection (w : World) (h : string) :
  (forall e, ledger w h = Rejected e ->
     run (confirmContribution escrowWallet h) w
     = (inl (BadRequestException (Msg.tx_not_found h)), w)) /\
  (fst (run (confirmContribution escrowWallet h) w)
   = inl (BadRequestException (Msg.tx_not_found h)) ->
   exists e, ledger w h = Rejected e).
Proof.
  rewrite run_confirmContribution. split.
  - intros e ->. reflexivity.
  - destruct (ledger w h) as [tx|e]; [|eauto].
    destruct (Js.string_or_undefined (memo tx)) as [[|a m']|];
      try discriminate.
    destruct (refused w (String a m')); [discriminate|].
    destruct (find_one w (String a m') PENDING) as [c|]; [|discriminate].
    destruct (run (verify escrowWallet h tx c) w) as [[e|c'] w'] eqn:Hv;
      [|discriminate].
    apply verify_error in Hv as [He _]. simpl. intros [= ->].
    now apply (verify_error_not_lookup _ h) in He.
Qed.

(** [settle] throws Conflict or, without a tier to read, a TypeError; it
    throws no BadRequest. *)
Lemma settle_no_bad_request (h : string)
    (c : Contribution.SponsorContribution) (w : World) (msg : Message) :
  fst (run (settle h c) w) <> inl (BadRequestException msg).
Proof.
  unfold settle. destruct (Contribution.tier c) as [t|]; [|discriminate].
  rewrite run_bind, run_assertCapacityAvailable.
  destruct (_ <=? _); [discriminate|].
  rewrite run_bind, run_save. discriminate.
Qed.

(** X5. The asset stage.  The call passes the operation that pays the
    escrow wallet on to the amount stage exactly when the operation is of
    the native asset (whatever its asset code says) or its asset code reads
    XLM or USDC once in upper case; the call is then the amount check
    followed by the capacity re-check and the commit.  In every other case,
    an operation that is neither native nor carries a code among them, the
    call refuses the asset: the contribution is marked [FAILED] with a
    reason, and BadRequest is thrown with a message, that quote the code as
    the operation gave it. *)
Theorem confirm_asset_stage (w : World) (h m : string)
    (tx : TransactionRecord) (c : Contribution.SponsorContribution)
    (op : PaymentOp) :
  ledger w h = Fulfilled tx ->
  Js.string_or_undefined (memo tx) = Some m ->
  Js.truthy (Some m) = true ->
  find_one w m PENDING = Some c ->
  List.find (fun o => String.eqb (to o) escrowWallet) (operations_of w tx)
    = Some op ->
  let passes :=
    asset_type op = "native" \/
    exists code, asset_code op = Some code /\
      (Js.toUpperCase code = "XLM" \/ Js.toUpperCase code = "USDC") in
  let refusal :=
    BadRequestException
      [Text ("Asset " +:+ quoted (assetCode op) +:+ " is not supported.")] in
  let expected := Js.parseFloat (Contribution.amount c) in
  let got := Js.parseFloat (amount op) in
  (passes <-> fst (run (confirmContribution escrowWallet h) w) <> inl refusal)
  /\
  (passes ->
   run (confirmContribution escrowWallet h) w =
   if amount_differs got expected then
     (inl (BadRequestException (Msg.wrong_amount expected got)),
      marked_failed c (Msg.wrong_amount_reason expected got) w)
   else run (settle h c) w) /\
  (~ passes ->
   run (confirmContribution escrowWallet h) w =
   (inl refusal,
    marked_failed c
      [Text ("Unsupported asset " +:+ quoted (assetCode op) +:+ ".")] w) /\
   Contribution.row_status
     <$> contributions
           (snd (run (confirmContribution escrowWallet h) w)) !! m
   = Some FAILED).
Proof.
  intros Hl Hm Ht Hc Hop passes refusal expected got.
  assert (supported (assetCode op) = true <-> passes) as Hpass.
  { rewrite supported_iff. unfold passes, assetCode.
    destruct (String.eqb_spec (asset_type op) "native") as [Hn|Hn].
    - split; [auto|]. intros _. left. reflexivity.
    - destruct (asset_code op) as [code|]; simpl.
      + split; [intros H; right; eauto|].
        intros [?|(code' & [= <-] & H)]; [contradiction|exact H].
      + split; [intros [?|?]; discriminate|].
        intros [?|(code' & [=] & _)]. contradiction. }
  rewrite (run_confirm_memo escrowWallet h m tx),
    (find_one_not_refused _ _ _ _ Hc), Hc, run_verify; trivial.
  apply find_one_id in Hc as Hid.
  destruct (operations_of w tx) as [|op0 ops]; [discriminate|].
  rewrite Hop, run_validate. fold (supported (assetCode op)).
  fold expected got.
  destruct (supported (assetCode op)) eqn:Hs; cbn [negb].
  - assert passes as Hp by now apply Hpass.
    split; [|split; [trivial|tauto]].
    split; [|trivial]. intros _.
    destruct (amount_differs got expected); [discriminate|].
    apply settle_no_bad_request.
  - assert (~ passes) as Hp by (rewrite <- Hpass; discriminate).
    split; [|split; [tauto|]].
    + split; [tauto|]. intros Hne. now contradiction Hne.
    + intros _. split; [reflexivity|].
      unfold marked_failed. simpl. now rewrite Hid, lookup_insert_eq.
Qed.

(** X6. The amount stage.  When the two amounts, read as doubles, are more
    than [0.0000001] apart, the contribution is marked [FAILED] and
    BadRequest is thrown; the reason and the message carry the amount of
    the contribution first and the amount of the operation second.  What
    the amount is held against is the amount of the contribution's own
    row. *)
Theorem confirm_amount_mismatch (w : World) (h m : string)
    (tx : TransactionRecord) (r : Contribution.Row) (op : PaymentOp) :
  ledger w h = Fulfilled tx ->
  Js.string_or_undefined (memo tx) = Some m ->
  Js.truthy (Some m) = true ->
  contributions w !! m = Some r ->
  Contribution.row_status r = PENDING ->
  List.find (fun o => String.eqb (to o) escrowWallet) (operations_of w tx)
    = Some op ->
  supported (assetCode op) = true ->
  amount_differs (Js.parseFloat (amount op))
    (Js.parseFloat (Contribution.row_amount r)) = true ->
  let expected := Js.parseFloat (Contribution.row_amount r) in
  let got := Js.parseFloat (amount op) in
  let w' := snd (run (confirmContribution escrowWallet h) w) in
  fst (run (confirmContribution escrowWallet h) w)
  = inl (BadRequestException
           [Text "Incorrect contribution amount. Expected "; Float expected;
            Text ", received "; Float got; Text "."]) /\
  contributions w' = <[m := Contribution.row_set_status FAILED r]>
                       (contributions w) /\
  audit w' = (audit w ++
    [{| action := PAYMENT_FAILED;
        userId := Contribution.row_sponsorId r;
        resourceId := m;
        meta := MetaFailed
                  [Text "Incorrect amount. Expected "; Float expected;
                   Text ", got "; Float got; Text "."] |}])%list.
Proof.
  intros Hl Hm Ht Hr Hst Hop Hasset Hdiff.
  assert (find_one w m PENDING = Some
            (Contribution.hydrate m r
               (Tier.hydrate (Contribution.row_tierId r)
                  <$> tiers w !! Contribution.row_tierId r))) as Hc.
  { apply find_one_Some. eauto. }
  cbv zeta.
  rewrite (run_confirm_memo escrowWallet h m tx),
    (find_one_not_refused _ _ _ _ Hc), Hc, run_verify; trivial.
  destruct (operations_of w tx) as [|op0 ops]; [discriminate|].
  rewrite Hop, run_validate. fold (supported (assetCode op)).
  rewrite Hasset. simpl. rewrite Hdiff. repeat split.
Qed.

(** X7. An amount that is no number.  When the amount of the operation
    does not read as a number at all, the amount stage lets it through:
    the call goes on to the capacity re-check and, with room in the tier,
    confirms the contribution. *)
Theorem confirm_amount_not_a_number (w : World) (h m : string)
    (tx : TransactionRecord) (c : Contribution.SponsorContribution)
    (op : PaymentOp) (t : Tier.SponsorTier) :
  ledger w h = Fulfilled tx ->
  Js.string_or_undefined (memo tx) = Some m ->
  Js.truthy (Some m) = true ->
  find_one w m PENDING = Some c ->
  List.find (fun o => String.eqb (to o) escrowWallet) (operations_of w tx)
    = Some op ->
  supported (assetCode op) = true ->
  Js.scan (amount op) = Js.NotANumber ->
  Contribution.tier c = Some t ->
  run (confirmContribution escrowWallet h) w =
  if Tier.maxSponsors t
     <=? Z.of_nat (count (contributions w) (Tier.id t) CONFIRMED (Some m))
  then (inl (ConflictException (Msg.tier_full t)), w)
  else (inr (confirmed_entity h c), committed h c w).
Proof.
  intros Hl Hm Ht Hc Hop Hasset Hnan Htier.
  rewrite (run_confirm_memo escrowWallet h m tx),
    (find_one_not_refused _ _ _ _ Hc), Hc, run_verify; trivial.
  apply find_one_id in Hc as Hid.
  destruct (operations_of w tx) as [|op0 ops]; [discriminate|].
  rewrite Hop, run_validate. fold (supported (assetCode op)).
  rewrite Hasset. simpl.
  unfold Js.parseFloat at 1. rewrite Hnan. simpl.
  rewrite (run_settle h c t), Hid; trivial. now rewrite Hid.
Qed.

End Stages.

(** ** The operations of a transaction *)

Lemma is_payment_type (op : PaymentOp) :
  is_payment op = true <-> type op = "payment" \/ type op = "create_account".
Proof.
  unfold is_payment. now rewrite orb_true_iff, !String.eqb_eq.
Qed.

(** X8. [resolvePaymentOperations] never throws and writes nothing; what it
    resolves to holds operations of type [payment] or [create_account]
    only; and when the link is there, the response is ok and its body has
    the expected shape, it is the records of these two types, in the order
    of the page. *)
Theorem resolvePaymentOperations_payments_only (tx : TransactionRecord)
    (w : World) :
  exists ops,
    run (resolvePaymentOperations tx) w = (inr ops, w) /\
    Forall (fun op => type op = "payment" \/ type op = "create_account") ops /\
    (forall links url res records,
       _links tx = Some links ->
       operations links ≫= href = Some url ->
       Js.truthy (Some url) = true ->
       network w url = Fulfilled res ->
       ok res = true ->
       json res = Fulfilled (Embedded records) ->
       ops = List.filter is_payment records).
Proof.
  unfold resolvePaymentOperations. rewrite run_try_catch.
  destruct (_links tx) as [links|] eqn:Hlinks;
    [|exists []; split; [reflexivity|]; split; [constructor|];
      intros; congruence].
  cbv zeta.
  destruct (operations links ≫= href) as [url|] eqn:Hh;
    [|exists []; split; [reflexivity|]; split; [constructor|];
      intros; congruence].
  destruct (Js.truthy (Some url)) eqn:Hurl; cbn [negb];
    [|exists []; split; [reflexivity|]; split; [constructor|];
      intros; congruence].
  simpl. destruct (network w url) as [res|e] eqn:Hn; simpl;
    [|exists []; split; [reflexivity|]; split; [constructor|];
      intros; congruence].
  destruct (ok res) eqn:Hok; simpl;
    [|exists []; split; [reflexivity|]; split; [constructor|];
      intros; congruence].
  destruct (json res) as [[|records]|e] eqn:Hj; simpl;
    try (exists []; split; [reflexivity|]; split; [constructor|];
         intros; congruence).
  exists (List.filter is_payment records).
  split; [reflexivity|]. split.
  - apply Forall_forall. intros op Hin.
    apply list_elem_of_In, filter_In in Hin as [_ Hp].
    now apply is_payment_type.
  - intros; congruence.
Qed.

Section OtherOperations.

Variable escrowWallet : string.

(** X9. Operations of other types do not count.  When the page of a
    transaction holds no operation of type [payment] or [create_account]
    (whatever else it holds, and whomever that pays), the located
    contribution is marked [FAILED] for want of payment operations and
    BadRequest is thrown. *)
Theorem confirm_other_operation_types (w : World) (h m url : string)
    (tx : TransactionRecord) (c : Contribution.SponsorContribution)
    (links : Links) (res : Response) (records : list PaymentOp) :
  ledger w h = Fulfilled tx ->
  Js.string_or_undefined (memo tx) = Some m ->
  Js.truthy (Some m) = true ->
  find_one w m PENDING = Some c ->
  _links tx = Some links ->
  operations links ≫= href = Some url ->
  network w url = Fulfilled res ->
  ok res = true ->
  json res = Fulfilled (Embedded records) ->
  Forall (fun op => type op <> "payment" /\ type op <> "create_account")
    records ->
  run (confirmContribution escrowWallet h) w =
  (inl (BadRequestException Msg.no_ops),
   marked_failed c Msg.no_ops_reason w).
Proof.
  intros Hl Hm Ht Hc Hlinks Hh Hn Hok Hj Hnone.
  rewrite (run_confirm_memo escrowWallet h m tx),
    (find_one_not_refused _ _ _ _ Hc), Hc, run_verify; trivial.
  assert (operations_of w tx = []) as ->; [|reflexivity].
  unfold operations_of, resolvePaymentOperations.
  rewrite run_try_catch, Hlinks. cbv zeta. rewrite Hh.
  destruct (Js.truthy (Some url)); [|reflexivity].
  simpl. rewrite Hn. simpl. rewrite Hok. simpl. rewrite Hj. simpl.
  clear Hj. induction Hnone as [|op records [Hp Hc'] _ IH]; trivial.
  simpl. unfold is_payment at 1.
  apply String.eqb_neq in Hp, Hc'. now rewrite Hp, Hc'.
Qed.

End OtherOperations.

(** ** From the intent to the confirmation *)

Section RoundTrip.

Variable escrowWallet : string.

(** X10. What [createIntent] hands out is what [confirmContribution]
    accepts.  After a [createIntent] that succeeded, a transaction that
    carries the returned memo and whose first operation to the escrow
    wallet is in a supported asset and of the returned amount, written as
    returned, is confirmed by the very next call: the contribution ends
    [CONFIRMED] with the hash of that transaction, and no Conflict can
    come in between. *)
Theorem intent_then_confirmation (tierId sponsorId h : string)
    (w w1 : World) (intent : Intent.ContributionIntent)
    (tx : TransactionRecord) (op : PaymentOp) :
  run (createIntent escrowWallet tierId sponsorId) w = (inr intent, w1) ->
  Js.truthy (Some (Intent.memo intent)) = true ->
  ledger w1 h = Fulfilled tx ->
  memo tx = Js.Str (Intent.memo intent) ->
  List.find (fun o => String.eqb (to o) escrowWallet) (operations_of w1 tx)
    = Some op ->
  supported (assetCode op) = true ->
  amount op = Intent.amount intent ->
  exists c w2,
    run (confirmContribution escrowWallet h) w1 = (inr c, w2) /\
    Contribution.id c = Intent.contributionId intent /\
    Contribution.status c = CONFIRMED /\
    Contribution.transactionHash c = Some h /\
    Contribution.sponsorId c = sponsorId /\
    Contribution.amount c = Intent.amount intent /\
    contributions w2 !! Intent.contributionId intent
      = Some (Contribution.to_row c).
Proof.
  intros Hrun Hmemo Hl Htx Hop Hasset Hamount.
  rewrite run_createIntent in Hrun.
  destruct (tiers w !! tierId) as [r|] eqn:Htier; [|discriminate].
  destruct (_ <=? _) eqn:Hroom; [discriminate|].
  destruct (contributions w !! uuid w (issued w)) eqn:Hkey; [discriminate|].
  injection Hrun as <- <-.
  cbn [Intent.memo Intent.contributionId Intent.amount] in *.
  set (key := uuid w (issued w)) in *.
  set (row := {| Contribution.row_sponsorId := sponsorId;
                 Contribution.row_tierId := tierId;
                 Contribution.row_amount := Tier.row_price r;
                 Contribution.row_transactionHash := None;
                 Contribution.row_status := PENDING;
                 Contribution.row_createdAt := now w |}).
  set (w1 := intended sponsorId tierId (Tier.row_price r) w) in *.
  set (c := Contribution.hydrate key row (Some (Tier.hydrate tierId r))).
  assert (find_one w1 key PENDING = Some c) as Hc.
  { apply find_one_Some. exists row. unfold w1, intended. simpl.
    rewrite lookup_insert_eq, Htier. repeat split. }
  assert (Js.string_or_undefined (memo tx) = Some key) as Hm
    by now rewrite Htx.
  rewrite (run_confirm_memo escrowWallet h key tx),
    (find_one_not_refused _ _ _ _ Hc), Hc, run_verify; trivial.
  destruct (operations_of w1 tx) as [|op0 ops]; [discriminate|].
  rewrite Hop, run_validate. fold (supported (assetCode op)).
  rewrite Hasset, Hamount. cbn [negb].
  change (Contribution.amount c) with (Tier.row_price r).
  unfold amount_differs. rewrite sub_diag_not_above.
  rewrite (run_settle h c (Tier.hydrate tierId r)); trivial.
  cbn [Tier.id Tier.maxSponsors Tier.hydrate Contribution.id
       Contribution.hydrate c].
  rewrite count_exclude_unselected.
  2:{ intros r0. unfold w1, intended. simpl fst. simpl.
      rewrite lookup_insert_eq. intros [= <-]. discriminate. }
  unfold w1 at 1, intended at 1. simpl.
  rewrite count_insert_unselected, Hroom.
  - eexists _, _. split; [reflexivity|]. simpl.
    repeat split. apply lookup_insert_eq.
  - apply selected_status. discriminate.
  - intros r0. fold key. rewrite Hkey. discriminate.
Qed.

End RoundTrip.

(** ** What the calls leave of the rows and of the audit trail *)



Section Rows.

Variable escrowWallet : string.

(** A BadRequest of [verify] comes with the contribution marked. *)
Lemma verify_bad_request (h : string) (tx : TransactionRecord)
    (c : Contribution.SponsorContribution) (w w' : World) (msg : Message) :
  run (verify escrowWallet h tx c) w = (inl (BadRequestException msg), w') ->
  exists reason, w' = marked_failed c reason w.
Proof.
  rewrite run_verify.
  destruct (operations_of w tx) as [|op0 ops]; [intros [= <- <-]; eauto|].
  destruct (List.find _ _) as [op|]; [|intros [= <- <-]; eauto].
  rewrite run_validate.
  destruct (negb _); [intros [= <- <-]; eauto|].
  destruct (amount_differs _ _); [intros [= <- <-]; eauto|].
  intros Hs. exfalso. apply (settle_no_bad_request h c w msg).
  now rewrite Hs.
Qed.

(** X11. A payment found wrong is final.  Once a contribution has been
    located, a call that ends in BadRequest has marked it [FAILED]; from
    then on every confirmation whose transaction carries that memo, also
    one that pays as asked, is answered NotFound and writes nothing. *)
Theorem bad_payment_is_final (w w' : World) (h m : string)
    (tx : TransactionRecord) (c : Contribution.SponsorContribution)
    (msg : Message) :
  ledger w h = Fulfilled tx ->
  Js.string_or_undefined (memo tx) = Some m ->
  Js.truthy (Some m) = true ->
  find_one w m PENDING = Some c ->
  run (confirmContribution escrowWallet h) w
  = (inl (BadRequestException msg), w') ->
  Contribution.row_status <$> contributions w' !! m = Some FAILED /\
  forall h2 tx2,
    ledger w' h2 = Fulfilled tx2 ->
    Js.string_or_undefined (memo tx2) = Some m ->
    run (confirmContribution escrowWallet h2) w'
    = (inl (NotFoundException (Msg.no_pending m)), w').
Proof.
  intros Hl Hm Ht Hc.
  rewrite (run_confirm_memo escrowWallet h m tx),
    (find_one_not_refused _ _ _ _ Hc), Hc; trivial.
  intros [reason ->]%verify_bad_request.
  apply find_one_id in Hc as Hid.
  assert (Contribution.row_status
            <$> contributions (marked_failed c reason w) !! m = Some FAILED)
    as Hfailed.
  { unfold marked_failed. simpl. now rewrite Hid, lookup_insert_eq. }
  split; [exact Hfailed|].
  intros h2 tx2 Hl2 Hm2.
  rewrite (run_confirm_memo escrowWallet h2 m tx2); trivial.
  assert (find_one (marked_failed c reason w) m PENDING = None) as ->.
  { apply find_one_None. intros (r & Hr & Hst).
    rewrite Hr in Hfailed. simpl in Hfailed. congruence. }
  destruct (contributions (marked_failed c reason w) !! m) as [r|] eqn:Hr;
    [|discriminate].
  now rewrite (keyed_not_refused _ _ _ Hr).
Qed.


(** What one call makes of a row that was there. *)
Lemma invoke_row (w : World) (call : Call) (id : string)
    (r : Contribution.Row) :
  contributions w !! id = Some r ->
  exists r',
    contributions (invoke escrowWallet w call) !! id = Some r' /\
    same_frozen_columns r r' /\
    (Contribution.row_status r <> PENDING -> r' = r).
Proof.
  intros Hr. destruct call as [tierId sponsorId | h];
    rewrite ?invoke_createIntent, ?invoke_confirmContribution.
  - destruct (createIntent_cases escrowWallet tierId sponsorId w)
      as [-> | (key & r0 & Hfree & _ & _ & ->)].
    + exists r. repeat split; trivial.
    + exists r. rewrite lookup_insert_ne by congruence.
      repeat split; trivial.
  - destruct (run (confirmContribution escrowWallet h) w) as [res w'] eqn:Hrun.
    apply confirm_cases in Hrun
      as [[-> _] | (m & c & Hc & [(reason & e & _ & ->) | (_ & -> & _)])];
      [exists r; repeat split; trivial| |];
      apply find_one_Some in Hc as (r0 & Hr0 & Hst & ->);
      unfold marked_failed, committed; simpl;
      (destruct (decide (m = id)) as [<-|Hne];
        [rewrite lookup_insert_eq; rewrite Hr in Hr0; injection Hr0 as <-;
         eexists; split; [reflexivity|]; split; [repeat split|];
         intros Hnp; congruence
        |rewrite lookup_insert_ne by trivial;
         exists r; repeat split; trivial]).
Qed.

(** X13. No call ever deletes a row or rewrites the sponsor, the tier, the
    amount or the creation time of one; and a row that is [CONFIRMED] or
    [FAILED] is never written again: after any series of calls it is there
    unchanged, transaction hash included. *)
Theorem rows_keep_frozen_columns (calls : list Call) (w : World)
    (id : string) (r : Contribution.Row) :
  contributions w !! id = Some r ->
  exists r',
    contributions (history escrowWallet calls w) !! id = Some r' /\
    same_frozen_columns r r' /\
    (Contribution.row_status r <> PENDING -> r' = r).
Proof.
  revert w r. unfold history.
  induction calls as [|call calls IH]; intros w r Hr; simpl.
  { exists r. repeat split; trivial. }
  destruct (invoke_row w call id r Hr) as (r1 & Hr1 & Hcols1 & Hterm1).
  destruct (IH _ r1 Hr1) as (r' & Hr' & Hcols & Hterm).
  exists r'. split; [exact Hr'|]. split.
  - destruct Hcols1 as (? & ? & ? & ?), Hcols as (? & ? & ? & ?).
    repeat split; congruence.
  - intros Hnp. rewrite <- (Hterm1 Hnp). apply Hterm.
    now rewrite (Hterm1 Hnp).
Qed.

(** X14. The audit trail keeps step with the rows.  A call either writes
    nothing to the rows and nothing to the trail, or writes one row and
    appends one event: the event names that row and its sponsor, and its
    action is the one of the status the row was written in. *)
Theorem audit_keeps_step (w : World) (call : Call) :
  let w' := invoke escrowWallet w call in
  (audit w' = audit w /\ contributions w' = contributions w) \/
  exists ev r,
    audit w' = (audit w ++ [ev])%list /\
    contributions w' = <[resourceId ev := r]> (contributions w) /\
    userId ev = Contribution.row_sponsorId r /\
    action ev = action_for (Contribution.row_status r).
Proof.
  cbv zeta. destruct call as [tierId sponsorId | h];
    rewrite ?invoke_createIntent, ?invoke_confirmContribution.
  - rewrite run_createIntent.
    destruct (tiers w !! tierId) as [tr|]; [|left; now split].
    destruct (_ <=? _); [left; now split|].
    destruct (contributions w !! uuid w (issued w)); [left; now split|].
    right. unfold intended. simpl. eexists _, _. repeat split.
  - destruct (run (confirmContribution escrowWallet h) w) as [res w'] eqn:Hrun.
    apply confirm_cases in Hrun
      as [[-> _] | (m & c & Hc & [(reason & e & _ & ->) | (_ & -> & _)])];
      [left; now split| |];
      right; unfold marked_failed, committed; simpl;
      eexists _, _; repeat split.
Qed.

End Rows.

(** ** One transaction, one contribution *)

Section Hashes.

Variable escrowWallet : string.



End Hashes.

(** ** Authentication *)

Section AuthProperties.

Variable Store : Type.
Variable createUser :
  Auth.RegisterDto.t -> Store -> Settled Auth.User.t * Store.
Variable findByEmail : string -> Store -> Settled (option Auth.User.t) * Store.
Variable compare : string -> string -> Settled bool.
Variable sign : Auth.Payload.t -> Z -> string.

(** X16. [login] hands out a token only for a user the users service found
    under the e-mail and whose stored hash the password was compared
    against with success; the token is signed over that user's identifier
    and role. *)
Theorem login_grants_only_on_match (dto : Auth.LoginDto.t) (s s' : Store)
    (iat : Z) (token : Auth.Token) :
  Auth.login Store findByEmail compare sign dto s iat = (inr token, s') ->
  exists user,
    findByEmail (Auth.LoginDto.email dto) s = (Fulfilled (Some user), s') /\
    compare (Auth.LoginDto.password dto) (Auth.User.passwordHash user)
      = Fulfilled true /\
    Auth.access_token token
      = sign {| Auth.Payload.sub := Auth.User.id user;
                Auth.Payload.role := Auth.User.role user |} iat.
Proof.
  unfold Auth.login.
  destruct (findByEmail _ s) as [[[user|]|e] s1]; try discriminate.
  destruct (compare _ _) as [[|]|e] eqn:Hcmp; try discriminate.
  intros [= <- <-]. exists user. repeat split. exact Hcmp.
Qed.

(** X17. [login] answers an unknown e-mail and a wrong password alike: the
    same UnauthorizedException with the same message, so the answer does
    not tell whether the e-mail is registered. *)
Theorem login_refusals_alike (dto1 dto2 : Auth.LoginDto.t)
    (s s1 s2 : Store) (iat1 iat2 : Z) (user : Auth.User.t) :
  findByEmail (Auth.LoginDto.email dto1) s = (Fulfilled None, s1) ->
  findByEmail (Auth.LoginDto.email dto2) s = (Fulfilled (Some user), s2) ->
  compare (Auth.LoginDto.password dto2) (Auth.User.passwordHash user)
    = Fulfilled false ->
  fst (Auth.login Store findByEmail compare sign dto1 s iat1)
  = fst (Auth.login Store findByEmail compare sign dto2 s iat2) /\
  fst (Auth.login Store findByEmail compare sign dto1 s iat1)
  = inl (Auth.UnauthorizedException "Invalid credentials").
Proof.
  intros H1 H2 Hcmp. unfold Auth.login. now rewrite H1, H2, Hcmp.
Qed.

(** X18. Who has registered can log in.  When [register] succeeded, and
    the users service, at whatever later time and in whatever state it is
    then, finds under the e-mail the user it created, and the password
    compares well with that user's hash, [login] with the same e-mail and
    password succeeds.  The token of [register] and the token of [login]
    are signed over the same payload, the identifier and the role of the
    created user, whatever role the request asked for; each is stamped
    with its own time of signing, so the two are the same text only where
    the signer makes them so. *)
Theorem register_then_login (dto : Auth.RegisterDto.t) (s s1 s' s2 : Store)
    (iat iat' : Z) (user : Auth.User.t) (token : Auth.Token) :
  Auth.register Store createUser sign dto s iat = (inr token, s1) ->
  createUser dto s = (Fulfilled user, s1) ->
  findByEmail (Auth.RegisterDto.email dto) s' = (Fulfilled (Some user), s2) ->
  compare (Auth.RegisterDto.password dto) (Auth.User.passwordHash user)
    = Fulfilled true ->
  let payload := {| Auth.Payload.sub := Auth.User.id user;
                    Auth.Payload.role := Auth.User.role user |} in
  Auth.access_token token = sign payload iat /\
  Auth.login Store findByEmail compare sign
    {| Auth.LoginDto.email := Auth.RegisterDto.email dto;
       Auth.LoginDto.password := Auth.RegisterDto.password dto |} s' iat'
  = (inr {| Auth.access_token := sign payload iat' |}, s2).
Proof.
  intros Hreg Hcreate Hfind Hcmp.
  unfold Auth.register in Hreg. destruct dto as [email password role].
  simpl in *. rewrite Hcreate in Hreg. injection Hreg as <-.
  unfold Auth.login. simpl. now rewrite Hfind, Hcmp.
Qed.

End AuthProperties.

(** ** The further properties on the running example *)

(** An intent for a tier that does not exist. *)
Lemma createIntent_failure_writes_nothing_witness :
  contributions Scenario.fresh = contributions Scenario.fresh /\
  audit Scenario.fresh = audit Scenario.fresh /\
  ((NotFoundException (Msg.tier_not_found "tier-9")
    = NotFoundException (Msg.tier_not_found "tier-9") /\
    tiers Scenario.fresh !! "tier-9" = None) \/
   (exists r, tiers Scenario.fresh !! "tier-9" = Some r /\
      NotFoundException (Msg.tier_not_found "tier-9")
      = ConflictException (Msg.tier_full (Tier.hydrate "tier-9" r)) /\
      Tier.row_maxSponsors r
        <= Z.of_nat (count (contributions Scenario.fresh) "tier-9"
                       CONFIRMED None)) \/
   (NotFoundException (Msg.tier_not_found "tier-9") = QueryFailedError /\
    is_Some (contributions Scenario.fresh
               !! uuid Scenario.fresh (issued Scenario.fresh)))).
Proof.
  apply (createIntent_failure_writes_nothing Scenario.wallet "tier-9"
           "sponsor-a" Scenario.fresh Scenario.fresh).
  vm_compute. reflexivity.
Defined.

(** A second intent on the tier with one place, before any confirmation. *)
Lemma createIntent_reserves_nothing_witness :
  exists intent' w2,
    run (createIntent Scenario.wallet "tier-1" "sponsor-b")
      Cases.after_first_intent = (inr intent', w2) /\
    Intent.contributionId intent'
      <> Intent.contributionId Scenario.first_intent /\
    Contribution.row_status
      <$> contributions w2 !! Intent.contributionId Scenario.first_intent
      = Some PENDING /\
    Contribution.row_status
      <$> contributions w2 !! Intent.contributionId intent' = Some PENDING.
Proof.
  apply (createIntent_reserves_nothing Scenario.wallet "tier-1" "sponsor-a"
           "sponsor-b" Scenario.fresh);
    vm_compute; reflexivity.
Defined.

(** A payment in EURT is refused; the native payment of the running
    example is passed on and confirmed. *)
Lemma confirm_asset_stage_witness :
  (run (confirmContribution Scenario.wallet "h-eurt") Cases.world =
   (inl (BadRequestException
           [Text ("Asset " +:+ quoted "EURT" +:+ " is not supported.")]),
    marked_failed Scenario.c1
      [Text ("Unsupported asset " +:+ quoted "EURT" +:+ ".")] Cases.world) /\
   Contribution.row_status
     <$> contributions
           (snd (run (confirmContribution Scenario.wallet "h-eurt")
                   Cases.world)) !! "c1"
   = Some FAILED) /\
  run (confirmContribution Scenario.wallet "h1") Scenario.one_pending
  = (inr (confirmed_entity "h1" Scenario.c1),
     committed "h1" Scenario.c1 Scenario.one_pending).
Proof.
  split.
  - refine (proj2 (proj2
      (confirm_asset_stage Scenario.wallet Cases.world "h-eurt" "c1"
         (Scenario.tx (Js.Str "c1") "ops/eurt") Scenario.c1
         (Cases.op "payment" Scenario.wallet "100.0000000" "credit_alphanum4"
            (Some "EURT")) _ _ _ _ _)) _);
      try (vm_compute; reflexivity).
    intros [H | (code & [= <-] & [H | H])]; vm_compute in H; discriminate.
  - refine (eq_trans (proj1 (proj2
      (confirm_asset_stage Scenario.wallet Scenario.one_pending "h1" "c1"
         (Scenario.tx (Js.Str "c1") "ops/exact") Scenario.c1
         (Scenario.payment Scenario.wallet "100.0000000") _ _ _ _ _)) _) _);
      try (vm_compute; reflexivity).
    left. reflexivity.
Defined.

(** A payment of 100.000001 for a contribution of 100.0000000. *)
Lemma confirm_amount_mismatch_witness :
  fst (run (confirmContribution Scenario.wallet "h-off") Scenario.one_pending)
  = inl (BadRequestException
           [Text "Incorrect contribution amount. Expected ";
            Float (Js.parseFloat "100.0000000"); Text ", received ";
            Float (Js.parseFloat "100.000001"); Text "."]).
Proof.
  refine (proj1
    (confirm_amount_mismatch Scenario.wallet Scenario.one_pending "h-off" "c1"
       (Scenario.tx (Js.Str "c1") "ops/off")
       (Scenario.row "sponsor-a" "100.0000000" None PENDING)
       (Scenario.payment Scenario.wallet "100.000001") _ _ _ _ _ _ _ _));
    vm_compute; reflexivity.
Defined.

(** A payment whose amount is spelled in words. *)
Lemma confirm_amount_not_a_number_witness :
  run (confirmContribution Scenario.wallet "h-words") Cases.world =
  (inr (confirmed_entity "h-words" Scenario.c1),
   committed "h-words" Scenario.c1 Cases.world).
Proof.
  refine (eq_trans
    (confirm_amount_not_a_number Scenario.wallet Cases.world "h-words" "c1"
       (Scenario.tx (Js.Str "c1") "ops/words") Scenario.c1
       (Cases.op "payment" Scenario.wallet "a hundred" "native" None)
       (Tier.hydrate "tier-1" Scenario.gold) _ _ _ _ _ _ _ _) _);
    vm_compute; reflexivity.
Defined.

(** A path payment to the escrow wallet. *)
Lemma confirm_other_operation_types_witness :
  run (confirmContribution Scenario.wallet "h-path") Cases.world =
  (inl (BadRequestException Msg.no_ops),
   marked_failed Scenario.c1 Msg.no_ops_reason Cases.world).
Proof.
  refine (confirm_other_operation_types Scenario.wallet Cases.world "h-path"
            "c1" "ops/path" (Scenario.tx (Js.Str "c1") "ops/path") Scenario.c1
            {| operations := Some {| href := Some "ops/path" |} |}
            {| ok := true;
               json := Fulfilled (Embedded
                 [Cases.op "path_payment_strict_send" Scenario.wallet
                    "100.0000000" "native" None]) |}
            _ _ _ _ _ _ _ _ _ _ _);
    try (vm_compute; reflexivity).
  constructor; [|constructor]. split; vm_compute; discriminate.
Defined.

(** The scenario of the specification: the intent, then the payment. *)
Lemma intent_then_confirmation_witness :
  exists c w2,
    run (confirmContribution Scenario.wallet "h1") Cases.after_first_intent
    = (inr c, w2) /\
    Contribution.id c = Intent.contributionId Scenario.first_intent /\
    Contribution.status c = CONFIRMED /\
    Contribution.transactionHash c = Some "h1" /\
    Contribution.sponsorId c = "sponsor-a" /\
    Contribution.amount c = Intent.amount Scenario.first_intent /\
    contributions w2 !! Intent.contributionId Scenario.first_intent
      = Some (Contribution.to_row c).
Proof.
  apply (intent_then_confirmation Scenario.wallet "tier-1" "sponsor-a" "h1"
           Scenario.fresh Cases.after_first_intent Scenario.first_intent
           (Scenario.tx (Js.Str "c1") "ops/exact")
           (Scenario.payment Scenario.wallet "100.0000000"));
    vm_compute; reflexivity.
Defined.

(** After the payment of 100.000001, the exact payment comes too late. *)
Lemma bad_payment_is_final_witness :
  let w' := snd (run (confirmContribution Scenario.wallet "h-off")
                   Scenario.one_pending) in
  run (confirmContribution Scenario.wallet "h1") w'
  = (inl (NotFoundException (Msg.no_pending "c1")), w').
Proof.
  refine (proj2
    (bad_payment_is_final Scenario.wallet Scenario.one_pending _ "h-off" "c1"
       (Scenario.tx (Js.Str "c1") "ops/off") Scenario.c1
       (Msg.wrong_amount (Js.parseFloat "100.0000000")
          (Js.parseFloat "100.000001")) _ _ _ _ _)
    "h1" (Scenario.tx (Js.Str "c1") "ops/exact") _ _);
    vm_compute; reflexivity.
Defined.

(** The confirmed contribution of the race, after three more calls. *)
Lemma rows_keep_frozen_columns_witness :
  exists r',
    contributions
      (history Scenario.wallet
         [ConfirmContribution "h2"; CreateIntent "tier-1" "sponsor-c";
          ConfirmContribution "h1"] Scenario.raced) !! "c2" = Some r' /\
    same_frozen_columns
      (Scenario.row "sponsor-b" "100.0000000" (Some "h2") CONFIRMED) r' /\
    (Contribution.row_status
       (Scenario.row "sponsor-b" "100.0000000" (Some "h2") CONFIRMED)
     <> PENDING ->
     r' = Scenario.row "sponsor-b" "100.0000000" (Some "h2") CONFIRMED).
Proof.
  apply (rows_keep_frozen_columns Scenario.wallet).
  vm_compute. reflexivity.
Defined.



(** Alice logs in, in second 7. *)
Lemma login_grants_only_on_match_witness :
  exists user,
    Cases.findByEmail "alice@example.org" [("alice@example.org", Cases.alice)]
    = (Fulfilled (Some user), [("alice@example.org", Cases.alice)]) /\
    Cases.compare "secret" (Auth.User.passwordHash user) = Fulfilled true /\
    "u1.sponsor@7"
    = Cases.sign {| Auth.Payload.sub := Auth.User.id user;
                    Auth.Payload.role := Auth.User.role user |} 7.
Proof.
  apply (login_grants_only_on_match _ Cases.findByEmail Cases.compare
           Cases.sign
           {| Auth.LoginDto.email := "alice@example.org";
              Auth.LoginDto.password := "secret" |}
           [("alice@example.org", Cases.alice)]
           [("alice@example.org", Cases.alice)] 7
           {| Auth.access_token := "u1.sponsor@7" |}).
  vm_compute. reflexivity.
Defined.

(** Bob, who is not registered, and Alice with a wrong password. *)
Lemma login_refusals_alike_witness :
  fst (Auth.login _ Cases.findByEmail Cases.compare Cases.sign
         {| Auth.LoginDto.email := "bob@example.org";
            Auth.LoginDto.password := "secret" |}
         [("alice@example.org", Cases.alice)] 7)
  = fst (Auth.login _ Cases.findByEmail Cases.compare Cases.sign
           {| Auth.LoginDto.email := "alice@example.org";
              Auth.LoginDto.password := "guess" |}
           [("alice@example.org", Cases.alice)] 8).
Proof.
  refine (proj1
    (login_refusals_alike _ Cases.findByEmail Cases.compare Cases.sign
       _ _ _ _ _ 7 8 Cases.alice _ _ _));
    vm_compute; reflexivity.
Defined.

(** Alice registers in second 3, asking to be an organizer, then logs in
    in second 7: a sponsor both times, and two different tokens. *)
Lemma register_then_login_witness :
  fst (Auth.register _ Cases.createUser Cases.sign
         {| Auth.RegisterDto.email := "alice@example.org";
            Auth.RegisterDto.password := "secret";
            Auth.RegisterDto.role := "organizer" |} [] 3)
  = inr {| Auth.access_token := "u1.sponsor@3" |} /\
  Auth.login _ Cases.findByEmail Cases.compare Cases.sign
    {| Auth.LoginDto.email := "alice@example.org";
       Auth.LoginDto.password := "secret" |}
    [("alice@example.org", Cases.alice)] 7
  = (inr {| Auth.access_token := "u1.sponsor@7" |},
     [("alice@example.org", Cases.alice)]).
Proof.
  split; [reflexivity|].
  refine (proj2
    (register_then_login _ Cases.createUser Cases.findByEmail Cases.compare
       Cases.sign
       {| Auth.RegisterDto.email := "alice@example.org";
          Auth.RegisterDto.password := "secret";
          Auth.RegisterDto.role := "organizer" |}
       [] _ [("alice@example.org", Cases.alice)] _ 3 7 Cases.alice
       {| Auth.access_token := "u1.sponsor@3" |} _ _ _ _));
    vm_compute; reflexivity.
Defined.

(** Four calls, one after the other, from the world without rows. *)
Lemma sequential_capacity_witness :
  within_capacity
    (history Scenario.wallet
       [CreateIntent "tier-1" "sponsor-a"; CreateIntent "tier-1" "sponsor-b";
        ConfirmContribution "h1"; ConfirmContribution "h2"]
       Scenario.fresh).
Proof.
  apply (sequential_capacity Scenario.wallet).
  intros tierId tr Htr.
  change (tiers Scenario.fresh)
    with ({[ "tier-1" := Scenario.gold ]} : gmap string Tier.Row) in Htr.
  apply lookup_singleton_Some in Htr as [_ <-].
  change (contributions Scenario.fresh)
    with (∅ : gmap string Contribution.Row).
  unfold count. rewrite map_filter_empty, map_size_empty. simpl. lia.
Defined.

